(** * nflow-ai configuration profiles: persistence layer and state projector

    A shallow embedding of
      - [src/services/config/localStorage.ts]  (debounce, LocalStorageService)
      - [src/services/config/configStore.tsx]  (configurationReducer, the provider)
      - [src/hooks/useConfig.ts]               (the stand-alone hook)
      - [src/types/config.ts]                  (the records)
    followed by the properties of the profile store that the specification
    states.

    Modelling conventions.
    - The program runs against an ambient world: the two localStorage items,
      the wall clock, the random source and the timer queue of the event
      loop.  Code is written in a state-and-exception monad over that world,
      so [try]/[catch]/[throw] and the order of the storage writes are kept.
    - A stored string is represented by what the program can observe of it:
      either it is the text [JSON.stringify] produced for a value (and
      [JSON.parse] gives that value back), or it is some other string, on
      which [JSON.parse] throws.  In the world, only strings of the shape
      the TypeScript annotations promise are considered, and the storage
      medium accepts every write (as the in-memory localStorage of the
      test-suite does).  The two loads are given a second time on arbitrary
      text ([Untyped]), where what [JSON.parse] returns may have any shape.
    - A closure of the provider reads the [state] that its render captured,
      which is an argument of the closure; [dispatch] acts on the
      projector's own state.
    - In-memory profiles are immutable values; [console.error] is outside
      the modelled state. *)

From Stdlib Require Import Ascii.
From stdpp Require Import gmap strings list fin_maps pretty.

Local Open Scope Z_scope.
Local Open Scope string_scope.

(* ===================================================================== *)
(** ** Data model ([types/config.ts]) *)
(* ===================================================================== *)

(** A JSON-serialisable setting value ([any] in [Record<string, any>]). *)
#[warnings="-register-all"]
Inductive any : Type :=
| JNull
| JBool (b : bool)
| JNum (z : Z)
| JStr (s : string)
| JArr (l : list any)
| JObj (m : gmap string any).

Record ConfigurationProfile := {
  id : string;
  name : string;
  settings : gmap string any;
  createdAt : string;
  updatedAt : string;
  version : Z
}.

Module ConfigurationUpdate.
Record t := {
  settings : option (gmap string any);
  name : option string
}.
End ConfigurationUpdate.

Module NewProfileRequest.
Record t := {
  name : string;
  copyFromCurrent : option bool
}.
End NewProfileRequest.

Record ConfigurationState := {
  currentProfile : option ConfigurationProfile;
  profiles : list ConfigurationProfile;
  loading : bool;
  error : option string
}.

(** [{ ...profile, updatedAt: now }] *)
Definition with_updatedAt (profile : ConfigurationProfile) (now : string)
  : ConfigurationProfile :=
  {| id := id profile; name := name profile; settings := settings profile;
     createdAt := createdAt profile; updatedAt := now;
     version := version profile |}.

(** [{ ...a, ...b }] on setting bags: the keys of [b] win. *)
Definition spread (a b : gmap string any) : gmap string any := b ∪ a.

(* ===================================================================== *)
(** ** Exceptions and the state monad *)
(* ===================================================================== *)

Inductive exn :=
| SyntaxError
| Error (message : string).

(** [(error as Error).message]; the text of a SyntaxError depends on the
    engine and no caller of this program inspects it. *)
Definition message (e : exn) : string :=
  match e with
  | SyntaxError => "Unexpected token"
  | Error m => m
  end.

Inductive outcome (S A : Type) :=
| Returns (a : A) (s : S)
| Throws (e : exn) (s : S).
Arguments Returns {S A} a s.
Arguments Throws {S A} e s.

Definition M (S A : Type) : Type := S -> outcome S A.

Definition ret {S A} (a : A) : M S A := fun s => Returns a s.

Definition bind {S A B} (m : M S A) (k : A -> M S B) : M S B :=
  fun s => match m s with
           | Returns a s' => k a s'
           | Throws e s' => Throws e s'
           end.

Definition throw {S A} (e : exn) : M S A := fun s => Throws e s.

(** [try { body } catch (error) { handler }] *)
Definition try_catch {S A} (body : M S A) (handler : exn -> M S A) : M S A :=
  fun s => match body s with
           | Returns a s' => Returns a s'
           | Throws e s' => handler e s'
           end.

Definition gets {S A} (f : S -> A) : M S A := fun s => Returns (f s) s.
Definition modify {S} (f : S -> S) : M S unit := fun s => Returns tt (f s).

Notation "x <- m ;; k" := (bind m (fun x => k))
  (at level 62, m at level 60, right associativity).
Notation "m ;;; k" := (bind m (fun _ => k))
  (at level 62, right associativity).

(* ===================================================================== *)
(** ** The ambient world *)
(* ===================================================================== *)

(** The observable content of a stored string. *)
Inductive text (A : Type) :=
| Encoded (a : A)
| Malformed (s : string).
Arguments Encoded {A} a.
Arguments Malformed {A} s.

(** The items under ['nexusflow-config'] and ['nexusflow-profiles']. *)
Record Storage := {
  CONFIG_STORAGE_KEY : option (text ConfigurationProfile);
  PROFILES_STORAGE_KEY : option (text (list ConfigurationProfile))
}.

(** A durable mutation, as recorded in the journal. *)
Inductive write :=
| SetConfig (v : text ConfigurationProfile)
| SetProfiles (v : text (list ConfigurationProfile))
| RemoveConfig.

(** A pending [setTimeout(later, wait)]: its handle, the time it is due and
    the arguments captured by the closure [later]. *)
Record timer := {
  handle : nat;
  due : Z;
  args : ConfigurationProfile
}.

Record World := {
  localStorage : Storage;
  journal : list write;      (* every durable mutation so far, oldest first *)
  clock : Z;                 (* milliseconds since the epoch *)
  lag : list Z;              (* milliseconds elapsing before each clock read *)
  random : list string;      (* successive [Math.random().toString(36)] *)
  timers : list timer;       (* the timer queue, in order of creation *)
  next_handle : nat;
  timeout : option nat       (* the variable [timeout] of the debounce closure *)
}.

Definition set_storage (f : Storage -> Storage) (j : list write) (w : World) : World :=
  {| localStorage := f (localStorage w); journal := journal w ++ j;
     clock := clock w; lag := lag w; random := random w;
     timers := timers w; next_handle := next_handle w; timeout := timeout w |}.

Definition set_clock (t : Z) (l : list Z) (w : World) : World :=
  {| localStorage := localStorage w; journal := journal w;
     clock := t; lag := l; random := random w;
     timers := timers w; next_handle := next_handle w; timeout := timeout w |}.

Definition set_random (r : list string) (w : World) : World :=
  {| localStorage := localStorage w; journal := journal w;
     clock := clock w; lag := lag w; random := r;
     timers := timers w; next_handle := next_handle w; timeout := timeout w |}.

Definition set_timers (ts : list timer) (n : nat) (w : World) : World :=
  {| localStorage := localStorage w; journal := journal w;
     clock := clock w; lag := lag w; random := random w;
     timers := ts; next_handle := n; timeout := timeout w |}.

Definition set_timeout (h : option nat) (w : World) : World :=
  {| localStorage := localStorage w; journal := journal w;
     clock := clock w; lag := lag w; random := random w;
     timers := timers w; next_handle := next_handle w; timeout := h |}.

(** *** localStorage *)

Definition getItem_CONFIG : M World (option (text ConfigurationProfile)) :=
  gets (fun w => CONFIG_STORAGE_KEY (localStorage w)).

Definition getItem_PROFILES : M World (option (text (list ConfigurationProfile))) :=
  gets (fun w => PROFILES_STORAGE_KEY (localStorage w)).

Definition setItem_CONFIG (v : text ConfigurationProfile) : M World unit :=
  modify (set_storage
            (fun s => {| CONFIG_STORAGE_KEY := Some v;
                         PROFILES_STORAGE_KEY := PROFILES_STORAGE_KEY s |})
            [SetConfig v]).

Definition setItem_PROFILES (v : text (list ConfigurationProfile)) : M World unit :=
  modify (set_storage
            (fun s => {| CONFIG_STORAGE_KEY := CONFIG_STORAGE_KEY s;
                         PROFILES_STORAGE_KEY := Some v |})
            [SetProfiles v]).

Definition removeItem_CONFIG : M World unit :=
  modify (set_storage
            (fun s => {| CONFIG_STORAGE_KEY := None;
                         PROFILES_STORAGE_KEY := PROFILES_STORAGE_KEY s |})
            [RemoveConfig]).

(** [if (!data) return ...]: the string that passes the test, that is, unless
    [data] is null or the empty string. *)
Definition truthy {A} (data : option (text A)) : option (text A) :=
  match data with
  | Some (Malformed EmptyString) => None
  | _ => data
  end.

(** *** JSON *)

Definition JSON_stringify {A} (a : A) : text A := Encoded a.

Definition JSON_parse {S A} (data : text A) : M S A :=
  match data with
  | Encoded a => ret a
  | Malformed _ => throw SyntaxError
  end.

(** *** console *)

Definition console_error {S} (msg : string) (e : exn) : M S unit := ret tt.

(** *** Date *)

(** The time that goes by before the next clock read. *)
Definition elapsed (w : World) : Z :=
  match lag w with
  | [] => 0
  | d :: _ => Z.max 0 d
  end.

(** [Date.now()]: the clock may have advanced since it was last read. *)
Definition Date_now : M World Z :=
  fun w =>
    let t := clock w + elapsed w in
    Returns t (set_clock t (tail (lag w)) w).

Definition pad (width : nat) (z : Z) : string :=
  let s := pretty z in
  String.concat "" (replicate (width - String.length s) "0") +:+ s.

(** [Date.prototype.toISOString] of a time value (ECMA-262, 21.4.4.36):
    proleptic Gregorian calendar, UTC, expanded years outside 0..9999. *)
Definition toISOString (t : Z) : string :=
  let day := t `div` 86400000 in
  let ms := t `mod` 86400000 in
  let z := day + 719468 in
  let era := z `div` 146097 in
  let doe := z - era * 146097 in
  let yoe := (doe - doe `div` 1460 + doe `div` 36524 - doe `div` 146096) `div` 365 in
  let doy := doe - (365 * yoe + yoe `div` 4 - yoe `div` 100) in
  let mp := (5 * doy + 2) `div` 153 in
  let d := doy - (153 * mp + 2) `div` 5 + 1 in
  let m := if bool_decide (mp < 10) then mp + 3 else mp - 9 in
  let y := yoe + era * 400 + (if bool_decide (m <= 2) then 1 else 0) in
  let year := if bool_decide (0 <= y <= 9999) then pad 4 y
              else (if bool_decide (y < 0) then "-" else "+") +:+ pad 6 (Z.abs y) in
  year +:+ "-" +:+ pad 2 m +:+ "-" +:+ pad 2 d +:+ "T" +:+
  pad 2 (ms `div` 3600000) +:+ ":" +:+ pad 2 ((ms `div` 60000) `mod` 60) +:+ ":" +:+
  pad 2 ((ms `div` 1000) `mod` 60) +:+ "." +:+ pad 3 (ms `mod` 1000) +:+ "Z".

(** [new Date().toISOString()] *)
Definition new_Date_toISOString : M World string :=
  t <- Date_now ;; ret (toISOString t).

(** *** Math *)

(** [Math.random().toString(36)]: the rendering of the next draw, such as
    ["0.4fzyo82mvyr"]; ["0"] when the draw is 0. *)
Definition Math_random_toString36 : M World string :=
  fun w =>
    Returns (match random w with
             | [] => "0"
             | r :: _ => r
             end)
            (set_random (tail (random w)) w).

(** [s.substr(start, length)] *)
Definition substr (start length : nat) (s : string) : string :=
  String.substring start length s.

(* ===================================================================== *)
(** ** The timer queue and [debounce] ([localStorage.ts], lines 7-17) *)
(* ===================================================================== *)

(** [setTimeout(later, wait)], where [later] captured [a]. *)
Definition setTimeout (a : ConfigurationProfile) (wait : Z) : M World nat :=
  fun w =>
    let h := next_handle w in
    Returns h (set_timers (timers w ++ [{| handle := h; due := clock w + wait; args := a |}])
                          (S h) w).

(** [clearTimeout(h)]; clearing [undefined] or a spent handle does nothing. *)
Definition clearTimeout (h : option nat) : M World unit :=
  match h with
  | None => ret tt
  | Some n =>
      modify (fun w => set_timers (filter (fun t => handle t ≠ n) (timers w))
                                  (next_handle w) w)
  end.

Section debounce.
Variable func : ConfigurationProfile -> M World unit.
Variable wait : Z.

Definition later (a : ConfigurationProfile) : M World unit :=
  h <- gets timeout ;;
  clearTimeout h ;;;
  func a.

Definition executedFunction (a : ConfigurationProfile) : M World unit :=
  h <- gets timeout ;;
  clearTimeout h ;;;
  h' <- setTimeout a wait ;;
  modify (set_timeout (Some h')).
End debounce.

(* ===================================================================== *)
(** ** LocalStorageService ([localStorage.ts], lines 19-215) *)
(* ===================================================================== *)

(** The function handed to [debounce] (lines 21-34). *)
Definition debounced_body (profile : ConfigurationProfile) : M World unit :=
  try_catch
    (now <- new_Date_toISOString ;;
     let updatedProfile := with_updatedAt profile now in
     setItem_CONFIG (JSON_stringify updatedProfile))
    (fun error =>
       console_error "Failed to save configuration to localStorage:" error ;;;
       throw (Error ("Failed to save configuration: " +:+ message error))).

Definition debouncedSaveCurrentProfile : ConfigurationProfile -> M World unit :=
  executedFunction 5000.

Definition saveCurrentProfile (profile : ConfigurationProfile) : M World unit :=
  try_catch
    (now <- new_Date_toISOString ;;
     let updatedProfile := with_updatedAt profile now in
     setItem_CONFIG (JSON_stringify updatedProfile))
    (fun error =>
       console_error "Failed to save configuration to localStorage:" error ;;;
       throw (Error ("Failed to save configuration: " +:+ message error))).

Definition autoSaveCurrentProfile (profile : ConfigurationProfile) : M World unit :=
  debouncedSaveCurrentProfile profile.

Definition loadCurrentProfile : M World (option ConfigurationProfile) :=
  try_catch
    (profileData <- getItem_CONFIG ;;
     match truthy profileData with
     | None => ret None
     | Some profileData =>
         profile <- JSON_parse profileData ;;
         ret (Some profile)
     end)
    (fun error =>
       console_error "Failed to load configuration from localStorage:" error ;;;
       ret None).

Definition saveProfiles (profiles : list ConfigurationProfile) : M World unit :=
  try_catch
    (setItem_PROFILES (JSON_stringify profiles))
    (fun error =>
       console_error "Failed to save profiles to localStorage:" error ;;;
       throw (Error ("Failed to save profiles: " +:+ message error))).

Definition loadProfiles : M World (list ConfigurationProfile) :=
  try_catch
    (profilesData <- getItem_PROFILES ;;
     match truthy profilesData with
     | None => ret []
     | Some profilesData =>
         profiles <- JSON_parse profilesData ;;
         ret profiles
     end)
    (fun error =>
       console_error "Failed to load profiles from localStorage:" error ;;;
       ret []).

(** [profiles.findIndex(profile => profile.id === profileId)];
    [None] stands for -1. *)
Fixpoint findIndex (profileId : string) (profiles : list ConfigurationProfile)
  : option nat :=
  match profiles with
  | [] => None
  | p :: rest =>
      if bool_decide (id p = profileId) then Some 0%nat
      else S <$> findIndex profileId rest
  end.

Definition createProfile (profileData : NewProfileRequest.t)
  : M World ConfigurationProfile :=
  ms <- Date_now ;;
  r <- Math_random_toString36 ;;
  let id := "profile_" +:+ pretty ms +:+ "_" +:+ substr 2 9 r in
  now <- new_Date_toISOString ;;
  settings <-
    (if bool_decide (NewProfileRequest.copyFromCurrent profileData ≠ Some false)
     then
       current <- loadCurrentProfile ;;
       ret (match current with
            | Some c => settings c
            | None => ∅
            end)
     else ret ∅) ;;
  let newProfile :=
    {| id := id; name := NewProfileRequest.name profileData;
       settings := settings; createdAt := now; updatedAt := now;
       version := 1 |} in
  existingProfiles <- loadProfiles ;;
  let updatedProfiles := (existingProfiles ++ [newProfile])%list in
  saveProfiles updatedProfiles ;;;
  (if bool_decide (length existingProfiles = 0%nat)
   then saveCurrentProfile newProfile
   else ret tt) ;;;
  ret newProfile.

(** The object literal of lines 153-160:
    [{ ...old, ...updates, updatedAt: now, settings: ... }]. *)
Definition apply_updates (old : ConfigurationProfile) (updates : ConfigurationUpdate.t)
    (now : string) : ConfigurationProfile :=
  {| id := id old;
     name := default (name old) (ConfigurationUpdate.name updates);
     settings :=
       match ConfigurationUpdate.settings updates with
       | Some s => spread (settings old) s
       | None => settings old
       end;
     createdAt := createdAt old;
     updatedAt := now;
     version := version old |}.

Definition updateProfile (profileId : string) (updates : ConfigurationUpdate.t)
  : M World (option ConfigurationProfile) :=
  profiles <- loadProfiles ;;
  match findIndex profileId profiles with
  | None => ret None
  | Some profileIndex =>
      match profiles !! profileIndex with
      | None => ret None   (* not reached: the index is that of an entry *)
      | Some old =>
          now <- new_Date_toISOString ;;
          let updatedProfile := apply_updates old updates now in
          let profiles := <[profileIndex := updatedProfile]> profiles in
          saveProfiles profiles ;;;
          currentProfile <- loadCurrentProfile ;;
          (match currentProfile with
           | Some c =>
               if bool_decide (id c = profileId)
               then saveCurrentProfile updatedProfile
               else ret tt
           | None => ret tt
           end) ;;;
          ret (Some updatedProfile)
      end
  end.

Definition deleteProfile (profileId : string) : M World bool :=
  profiles <- loadProfiles ;;
  match findIndex profileId profiles with
  | None => ret false
  | Some _ =>
      let profiles := filter (fun profile => id profile ≠ profileId) profiles in
      saveProfiles profiles ;;;
      currentProfile <- loadCurrentProfile ;;
      (match currentProfile with
       | Some c =>
           if bool_decide (id c = profileId)
           then
             match profiles with
             | first :: _ => saveCurrentProfile first
             | [] => removeItem_CONFIG
             end
           else ret tt
       | None => ret tt
       end) ;;;
      ret true
  end.

Module ConfigurationProfileSummary.
Record t := {
  id : string;
  name : string;
  updatedAt : string
}.
End ConfigurationProfileSummary.

Definition getProfileSummaries : M World (list ConfigurationProfileSummary.t) :=
  profiles <- loadProfiles ;;
  ret ((fun profile =>
          {| ConfigurationProfileSummary.id := id profile;
             ConfigurationProfileSummary.name := name profile;
             ConfigurationProfileSummary.updatedAt := updatedAt profile |})
       <$> profiles).

(* ===================================================================== *)
(** ** The event loop: letting time pass between tasks *)
(* ===================================================================== *)

(** The timer that fires next: least due time, oldest first among equals. *)
Fixpoint earliest (ts : list timer) : option timer :=
  match ts with
  | [] => None
  | t :: rest =>
      match earliest rest with
      | Some t' => if bool_decide (due t' < due t) then Some t' else Some t
      | None => Some t
      end
  end.

(** Fire, in order, the timers due by [target].  Every timer of this program
    runs the closure [later] of the debounced save; an exception escaping a
    timer task is reported by the host and does not stop the loop. *)
Fixpoint run_timers (fuel : nat) (target : Z) : M World unit :=
  match fuel with
  | O => ret tt
  | S fuel' =>
      ts <- gets timers ;;
      match earliest ts with
      | Some t =>
          if bool_decide (due t <= target) then
            modify (fun w => set_timers (filter (fun t' => handle t' ≠ handle t) (timers w))
                                        (next_handle w) w) ;;;
            modify (fun w => set_clock (Z.max (clock w) (due t)) (lag w) w) ;;;
            try_catch (later debounced_body (args t)) (fun _ => ret tt) ;;;
            run_timers fuel' target
          else ret tt
      | None => ret tt
      end
  end.

(** [ms] milliseconds go by with no task of the program running, as with
    [jest.advanceTimersByTime(ms)].  No timer callback creates a timer, so
    the length of the queue bounds the number of firings. *)
Definition elapse (ms : Z) : M World unit :=
  now <- gets clock ;;
  let target := now + Z.max 0 ms in
  n <- gets (fun w => length (timers w)) ;;
  run_timers n target ;;;
  modify (fun w => set_clock (Z.max (clock w) target) (lag w) w).

(** A burst of autosave requests: [first], then each [(gap, profile)] of
    [rest] after [gap] further milliseconds. *)
Fixpoint burst (first : ConfigurationProfile)
    (rest : list (Z * ConfigurationProfile)) : M World unit :=
  autoSaveCurrentProfile first ;;;
  match rest with
  | [] => ret tt
  | (gap, next) :: rest' => elapse gap ;;; burst next rest'
  end.

(** The argument of the last request of a burst. *)
Fixpoint last_request (first : ConfigurationProfile)
    (rest : list (Z * ConfigurationProfile)) : ConfigurationProfile :=
  match rest with
  | [] => first
  | (_, next) :: rest' => last_request next rest'
  end.

(* ===================================================================== *)
(** ** The state projector and the provider ([configStore.tsx]) *)
(* ===================================================================== *)

Inductive ConfigurationAction :=
| LOAD_START
| LOAD_SUCCESS (currentProfile : option ConfigurationProfile)
               (profiles : list ConfigurationProfile)
| LOAD_ERROR (payload : string)
| SAVE_START
| SAVE_SUCCESS (payload : ConfigurationProfile)
| SAVE_ERROR (payload : string)
| CREATE_PROFILE_SUCCESS (payload : ConfigurationProfile)
| SWITCH_PROFILE_SUCCESS (payload : ConfigurationProfile)
| DELETE_PROFILE_SUCCESS (payload : string)
| UPDATE_SETTING (key : string) (value : any).

Definition initialState : ConfigurationState :=
  {| currentProfile := None; profiles := []; loading := false; error := None |}.

(** The reducer reads the clock in its [UPDATE_SETTING] case only. *)
Definition configurationReducer (state : ConfigurationState)
    (action : ConfigurationAction) : M World ConfigurationState :=
  match action with
  | LOAD_START =>
      ret {| currentProfile := currentProfile state; profiles := profiles state;
             loading := true; error := None |}
  | LOAD_SUCCESS current all =>
      ret {| currentProfile := current; profiles := all;
             loading := false; error := error state |}
  | LOAD_ERROR payload =>
      ret {| currentProfile := currentProfile state; profiles := profiles state;
             loading := false; error := Some payload |}
  | SAVE_START =>
      ret {| currentProfile := currentProfile state; profiles := profiles state;
             loading := true; error := error state |}
  | SAVE_SUCCESS payload =>
      ret {| currentProfile := Some payload;
             profiles := (fun p => if bool_decide (id p = id payload)
                                   then payload else p) <$> profiles state;
             loading := false; error := error state |}
  | SAVE_ERROR payload =>
      ret {| currentProfile := currentProfile state; profiles := profiles state;
             loading := false; error := Some payload |}
  | CREATE_PROFILE_SUCCESS payload =>
      ret {| currentProfile :=
               if bool_decide (length (profiles state) = 0%nat)
               then Some payload else currentProfile state;
             profiles := (profiles state ++ [payload])%list;
             loading := loading state; error := error state |}
  | SWITCH_PROFILE_SUCCESS payload =>
      ret {| currentProfile := Some payload; profiles := profiles state;
             loading := loading state; error := error state |}
  | DELETE_PROFILE_SUCCESS payload =>
      ret {| currentProfile :=
               if bool_decide (id <$> currentProfile state = Some payload)
               then None else currentProfile state;
             profiles := filter (fun p => id p ≠ payload) (profiles state);
             loading := loading state; error := error state |}
  | UPDATE_SETTING key value =>
      match currentProfile state with
      | None => ret state
      | Some current =>
          let updatedSettings := <[key := value]> (settings current) in
          now <- new_Date_toISOString ;;
          ret {| currentProfile :=
                   Some {| id := id current; name := name current;
                           settings := updatedSettings;
                           createdAt := createdAt current; updatedAt := now;
                           version := version current |};
                 profiles := profiles state;
                 loading := loading state; error := error state |}
      end
  end.

(** The provider: the reducer state next to the ambient world. *)
Record App := {
  state : ConfigurationState;
  world : World
}.

Definition lift {A} (m : M World A) : M App A :=
  fun app =>
    match m (world app) with
    | Returns a w => Returns a {| state := state app; world := w |}
    | Throws e w => Throws e {| state := state app; world := w |}
    end.

Definition dispatch (action : ConfigurationAction) : M App unit :=
  fun app =>
    match configurationReducer (state app) action (world app) with
    | Returns s w => Returns tt {| state := s; world := w |}
    | Throws e w => Throws e {| state := state app; world := w |}
    end.

(** [profiles.find(p => p.id === profileId)] *)
Fixpoint find (profileId : string) (profiles : list ConfigurationProfile)
  : option ConfigurationProfile :=
  match profiles with
  | [] => None
  | p :: rest => if bool_decide (id p = profileId) then Some p else find profileId rest
  end.

(** [switchProfile] (lines 176-204), as the closure of the current render:
    its [state] is the projector's state at the time of the call.  A
    rejected promise is a throw. *)
Definition switchProfile (profileId : string) : M App unit :=
  try_catch
    (profiles <- lift loadProfiles ;;
     match find profileId profiles with
     | None => throw (Error ("Profile with id " +:+ profileId +:+ " not found"))
     | Some profileToSwitch =>
         st <- gets state ;;
         (match currentProfile st with
          | Some current => lift (saveCurrentProfile current)
          | None => ret tt
          end) ;;;
         lift (saveCurrentProfile profileToSwitch) ;;;
         dispatch (SWITCH_PROFILE_SUCCESS profileToSwitch)
     end)
    (fun error =>
       dispatch (LOAD_ERROR ("Failed to switch profile: " +:+ message error)) ;;;
       throw error).

(** [switchProfile] as the closure of any render: [rendered] is the [state]
    that render captured. *)
Definition switchProfileFrom (rendered : ConfigurationState) (profileId : string)
  : M App unit :=
  try_catch
    (profiles <- lift loadProfiles ;;
     match find profileId profiles with
     | None => throw (Error ("Profile with id " +:+ profileId +:+ " not found"))
     | Some profileToSwitch =>
         (match currentProfile rendered with
          | Some current => lift (saveCurrentProfile current)
          | None => ret tt
          end) ;;;
         lift (saveCurrentProfile profileToSwitch) ;;;
         dispatch (SWITCH_PROFILE_SUCCESS profileToSwitch)
     end)
    (fun error =>
       dispatch (LOAD_ERROR ("Failed to switch profile: " +:+ message error)) ;;;
       throw error).

(** What [object[key]] evaluates to on a settings bag: the bag's own value,
    else the member of that name inherited from [Object.prototype] (a
    function or object, no JSON value), else undefined. *)
Inductive property :=
| Own (value : any)
| Inherited (member : string)
| Undefined.

(** The members of [Object.prototype] of an unmodified host. *)
Definition Object_prototype : list string :=
  ["constructor"; "hasOwnProperty"; "isPrototypeOf"; "propertyIsEnumerable";
   "toLocaleString"; "toString"; "valueOf"; "__proto__";
   "__defineGetter__"; "__defineSetter__"; "__lookupGetter__"; "__lookupSetter__"].

Definition get_property (object : gmap string any) (key : string) : property :=
  match object !! key with
  | Some value => Own value
  | None => if bool_decide (key ∈ Object_prototype) then Inherited key else Undefined
  end.

(** The other operations of the provider ([configStore.tsx], lines 106-253).
    Each closure reads the [state] of the render that created it.
    [loadConfig], [saveConfig], [createProfile] and [deleteProfile] below are
    the closures of the current render: their [state] is the projector's
    state at the time of the call.  [switchProfileFrom], [saveConfigFrom],
    [updateSetting] and [getSetting] take the state their render captured as
    the argument [rendered]; [dispatch] always acts on the projector's own
    state. *)
Module ConfigurationProvider.

Definition loadConfig : M App unit :=
  try_catch
    (dispatch LOAD_START ;;;
     current <- lift loadCurrentProfile ;;
     all <- lift loadProfiles ;;
     dispatch (LOAD_SUCCESS current all))
    (fun error =>
       dispatch (LOAD_ERROR ("Failed to load configuration: " +:+ message error))).

Definition saveConfig (updates : ConfigurationUpdate.t) : M App unit :=
  st <- gets state ;;
  try_catch
    (dispatch SAVE_START ;;;
     match currentProfile st with
     | None => throw (Error "No current profile to save")
     | Some current =>
         updatedProfile <- lift (updateProfile (id current) updates) ;;
         match updatedProfile with
         | None => throw (Error "Failed to update profile")
         | Some updatedProfile => dispatch (SAVE_SUCCESS updatedProfile)
         end
     end)
    (fun error =>
       dispatch (SAVE_ERROR ("Failed to save configuration: " +:+ message error)) ;;;
       throw error).

Definition createProfile (profileData : NewProfileRequest.t) : M App unit :=
  try_catch
    (newProfile <- lift (createProfile profileData) ;;
     dispatch (CREATE_PROFILE_SUCCESS newProfile))
    (fun error =>
       dispatch (LOAD_ERROR ("Failed to create profile: " +:+ message error)) ;;;
       throw error).

Definition deleteProfile (profileId : string) : M App unit :=
  try_catch
    (success <- lift (deleteProfile profileId) ;;
     if success
     then dispatch (DELETE_PROFILE_SUCCESS profileId)
     else throw (Error ("Failed to delete profile with id " +:+ profileId)))
    (fun error =>
       dispatch (LOAD_ERROR ("Failed to delete profile: " +:+ message error)) ;;;
       throw error).

(** [saveConfig] as the closure of any render (lines 130-155). *)
Definition saveConfigFrom (rendered : ConfigurationState)
    (updates : ConfigurationUpdate.t) : M App unit :=
  try_catch
    (dispatch SAVE_START ;;;
     match currentProfile rendered with
     | None => throw (Error "No current profile to save")
     | Some current =>
         updatedProfile <- lift (updateProfile (id current) updates) ;;
         match updatedProfile with
         | None => throw (Error "Failed to update profile")
         | Some updatedProfile => dispatch (SAVE_SUCCESS updatedProfile)
         end
     end)
    (fun error =>
       dispatch (SAVE_ERROR ("Failed to save configuration: " +:+ message error)) ;;;
       throw error).

Definition updateSetting (rendered : ConfigurationState) (key : string) (value : any)
  : M App unit :=
  dispatch (UPDATE_SETTING key value) ;;;
  match currentProfile rendered with
  | Some current =>
      lift (autoSaveCurrentProfile
              {| id := id current; name := name current;
                 settings := <[key := value]> (settings current);
                 createdAt := createdAt current; updatedAt := updatedAt current;
                 version := version current |})
  | None => ret tt
  end.

Definition getSetting (rendered : ConfigurationState) (key : string) : property :=
  match currentProfile rendered with
  | None => Undefined
  | Some current => get_property (settings current) key
  end.

End ConfigurationProvider.

(* ===================================================================== *)
(** ** The stand-alone hook ([hooks/useConfig.ts]) *)
(* ===================================================================== *)

(** [try { body } finally { fin }] *)
Definition try_finally {S A} (body : M S A) (fin : M S unit) : M S A :=
  fun s =>
    match body s with
    | Returns a s' =>
        match fin s' with
        | Returns _ s'' => Returns a s''
        | Throws e s'' => Throws e s''
        end
    | Throws e s' =>
        match fin s' with
        | Returns _ s'' => Throws e s''
        | Throws e' s'' => Throws e' s''
        end
    end.

Module useConfigHook.

(** The three [useState] cells next to the ambient world. *)
Record Hook := {
  currentProfile : option ConfigurationProfile;
  loading : bool;
  error : option string;
  world : World
}.

Definition setCurrentProfile (p : option ConfigurationProfile) : M Hook unit :=
  modify (fun h => {| currentProfile := p; loading := loading h;
                      error := error h; world := world h |}).

Definition setLoading (b : bool) : M Hook unit :=
  modify (fun h => {| currentProfile := currentProfile h; loading := b;
                      error := error h; world := world h |}).

Definition setError (e : option string) : M Hook unit :=
  modify (fun h => {| currentProfile := currentProfile h; loading := loading h;
                      error := e; world := world h |}).

Definition lift {A} (m : M World A) : M Hook A :=
  fun h =>
    match m (world h) with
    | Returns a w => Returns a {| currentProfile := currentProfile h; loading := loading h;
                                  error := error h; world := w |}
    | Throws e w => Throws e {| currentProfile := currentProfile h; loading := loading h;
                                error := error h; world := w |}
    end.

Definition loadConfig : M Hook unit :=
  try_finally
    (try_catch
       (setLoading true ;;;
        setError None ;;;
        profile <- lift loadCurrentProfile ;;
        setCurrentProfile profile)
       (fun err =>
          setError (Some ("Failed to load configuration: " +:+ message err))))
    (setLoading false).

(** [saveConfig] and [updateSetting] (lines 35-70), as the closures of the
    current render: their [currentProfile] is the cell at the time of the
    call. *)
Definition saveConfig (updates : ConfigurationUpdate.t) : M Hook unit :=
  current <- gets currentProfile ;;
  match current with
  | None => throw (Error "No current profile to save")
  | Some current =>
      try_finally
        (try_catch
           (setLoading true ;;;
            setError None ;;;
            updatedProfile <- lift (updateProfile (id current) updates) ;;
            match updatedProfile with
            | Some updatedProfile => setCurrentProfile (Some updatedProfile)
            | None => ret tt
            end)
           (fun err =>
              setError (Some ("Failed to save configuration: " +:+ message err)) ;;;
              throw err))
        (setLoading false)
  end.

Definition updateSetting (key : string) (value : any) : M Hook unit :=
  current <- gets currentProfile ;;
  match current with
  | None => throw (Error "No current profile to update")
  | Some current =>
      let updates :=
        {| ConfigurationUpdate.settings := Some (<[key := value]> (settings current));
           ConfigurationUpdate.name := None |} in
      saveConfig updates
  end.

(** [getSetting] (lines 72-77) reads the [currentProfile] cell as the render
    that created the closure saw it. *)
Definition getSetting (rendered : option ConfigurationProfile) (key : string) : property :=
  match rendered with
  | None => Undefined
  | Some current => get_property (settings current) key
  end.

End useConfigHook.

(* ===================================================================== *)
(** ** The two loads on arbitrary stored text *)
(* ===================================================================== *)

(** The annotations [ConfigurationProfile] and [ConfigurationProfile[]] of the
    loads are erased when the program runs: what [JSON.parse] returns is
    what the load returns.  Here an item is any text: [Encoded j] parses to
    the JSON value [j], of whatever shape, and [Malformed s] is rejected by
    [JSON.parse]; the literal [null] is [JNull] and [[]] is [JArr []]. *)
Module Untyped.

Record Storage := {
  CONFIG_STORAGE_KEY : option (text any);
  PROFILES_STORAGE_KEY : option (text any)
}.

Definition loadCurrentProfile : M Storage any :=
  try_catch
    (profileData <- gets CONFIG_STORAGE_KEY ;;
     match truthy profileData with
     | None => ret JNull
     | Some profileData =>
         profile <- JSON_parse profileData ;;
         ret profile
     end)
    (fun error =>
       console_error "Failed to load configuration from localStorage:" error ;;;
       ret JNull).

Definition loadProfiles : M Storage any :=
  try_catch
    (profilesData <- gets PROFILES_STORAGE_KEY ;;
     match truthy profilesData with
     | None => ret (JArr [])
     | Some profilesData =>
         profiles <- JSON_parse profilesData ;;
         ret profiles
     end)
    (fun error =>
       console_error "Failed to load profiles from localStorage:" error ;;;
       ret (JArr [])).

End Untyped.

(** The JSON value of a profile, and the text of the typed items. *)
Definition toJSON (p : ConfigurationProfile) : any :=
  JObj {[ "id" := JStr (id p); "name" := JStr (name p);
          "settings" := JObj (settings p);
          "createdAt" := JStr (createdAt p); "updatedAt" := JStr (updatedAt p);
          "version" := JNum (version p) ]}.

Definition erase_text {A} (f : A -> any) (t : text A) : text any :=
  match t with
  | Encoded a => Encoded (f a)
  | Malformed s => Malformed s
  end.

Definition erase (s : Storage) : Untyped.Storage :=
  {| Untyped.CONFIG_STORAGE_KEY := erase_text toJSON <$> CONFIG_STORAGE_KEY s;
     Untyped.PROFILES_STORAGE_KEY :=
       erase_text (fun l => JArr (toJSON <$> l)) <$> PROFILES_STORAGE_KEY s |}.

(* ===================================================================== *)
(** ** What the durable state decodes to *)
(* ===================================================================== *)

(** The profile held by the current-pointer slot, if it decodes. *)
Definition stored_current (s : Storage) : option ConfigurationProfile :=
  match CONFIG_STORAGE_KEY s with
  | Some (Encoded p) => Some p
  | _ => None
  end.

(** The profile list held by the list slot, if it decodes. *)
Definition stored_profiles (s : Storage) : list ConfigurationProfile :=
  match PROFILES_STORAGE_KEY s with
  | Some (Encoded l) => l
  | _ => []
  end.

(** The world once the clock has been read. *)
Definition ticked (w : World) : World :=
  set_clock (clock w + elapsed w) (tail (lag w)) w.

(** The world after [saveCurrentProfile profile]. *)
Definition saved_current (profile : ConfigurationProfile) (w : World) : World :=
  let now := toISOString (clock w + elapsed w) in
  set_storage
    (fun s => {| CONFIG_STORAGE_KEY := Some (Encoded (with_updatedAt profile now));
                 PROFILES_STORAGE_KEY := PROFILES_STORAGE_KEY s |})
    [SetConfig (Encoded (with_updatedAt profile now))]
    (ticked w).

(** The world after [saveProfiles list]. *)
Definition saved_profiles (l : list ConfigurationProfile) (w : World) : World :=
  set_storage
    (fun s => {| CONFIG_STORAGE_KEY := CONFIG_STORAGE_KEY s;
                 PROFILES_STORAGE_KEY := Some (Encoded l) |})
    [SetProfiles (Encoded l)] w.

(** The world once the random source has been drawn from. *)
Definition drawn (w : World) : World := set_random (tail (random w)) w.

(** Whether the character [c] occurs in [s]. *)
Fixpoint occurs (c : ascii) (s : string) : bool :=
  match s with
  | EmptyString => false
  | String c' s' => bool_decide (c' = c) || occurs c s'
  end.

(** The timer queue holds nothing but the timer the debounce closure
    remembers in [timeout]: the invariant of the autosave coalescer. *)
Definition owned (w : World) : Prop :=
  timers w = [] \/ exists t, timers w = [t] /\ timeout w = Some (handle t).

(** A flush of [p] is pending, due [left] ms from now. *)
Definition pending (p : ConfigurationProfile) (left : Z) (w : World) : Prop :=
  exists h,
    timers w = [{| handle := h; due := clock w + left; args := p |}] /\
    timeout w = Some h.

(** A quiet period: time goes by in steps, with no request in between. *)
Fixpoint idle (waits : list Z) : M World unit :=
  match waits with
  | [] => ret tt
  | ms :: rest => elapse ms ;;; idle rest
  end.

(** The length of a quiet period; a negative step counts for nothing. *)
Fixpoint total (waits : list Z) : Z :=
  match waits with
  | [] => 0
  | ms :: rest => Z.max 0 ms + total rest
  end.

(** The profile in the current-pointer slot, if any, is an entry of the
    stored list: the consistency the two slots are meant to keep. *)
Definition pointer_in_list (s : Storage) : Prop :=
  match stored_current s with
  | Some c => id c ∈ id <$> stored_profiles s
  | None => True
  end.

(** The projector's list is the stored list. *)
Definition mirrors (app : App) : Prop :=
  profiles (state app) = stored_profiles (localStorage (world app)).

(** The summary of a profile. *)
Definition summary (profile : ConfigurationProfile) : ConfigurationProfileSummary.t :=
  {| ConfigurationProfileSummary.id := id profile;
     ConfigurationProfileSummary.name := name profile;
     ConfigurationProfileSummary.updatedAt := updatedAt profile |}.


(** [{ ...profile, settings: { ...profile.settings, [key]: value } }] *)
Definition with_setting (profile : ConfigurationProfile) (key : string) (value : any)
  : ConfigurationProfile :=
  {| id := id profile; name := name profile;
     settings := <[key := value]> (settings profile);
     createdAt := createdAt profile; updatedAt := updatedAt profile;
     version := version profile |}.

(** The projector and the current-pointer slot designate the same profile
    (or both none). *)
Definition same_current (app : App) : Prop :=
  id <$> currentProfile (state app)
  = id <$> stored_current (localStorage (world app)).

(* ===================================================================== *)
(** ** Sample worlds *)
(* ===================================================================== *)

Definition dark_profile : ConfigurationProfile :=
  {| id := "p1"; name := "Default";
     settings := {[ "theme" := JStr "dark"; "language" := JStr "en" ]};
     createdAt := "2023-01-01T00:00:00.000Z";
     updatedAt := "2023-01-01T00:00:00.000Z";
     version := 1 |}.

Definition light_profile : ConfigurationProfile :=
  {| id := "p2"; name := "Bright";
     settings := {[ "theme" := JStr "light" ]};
     createdAt := "2023-01-01T00:00:00.000Z";
     updatedAt := "2023-01-01T00:00:00.000Z";
     version := 1 |}.

Definition theme_light : ConfigurationUpdate.t :=
  {| ConfigurationUpdate.settings := Some {[ "theme" := JStr "light" ]};
     ConfigurationUpdate.name := None |}.

(** A world at 2023-01-01T00:00:00Z with the given items, upcoming clock
    lags and random draws, and an idle timer queue. *)
Definition sample_world (current : option (text ConfigurationProfile))
    (stored : option (text (list ConfigurationProfile)))
    (lags : list Z) (draws : list string) : World :=
  {| localStorage := {| CONFIG_STORAGE_KEY := current; PROFILES_STORAGE_KEY := stored |};
     journal := []; clock := 1672531200000; lag := lags; random := draws;
     timers := []; next_handle := 1; timeout := None |}.

(* ===================================================================== *)
(** ** Sanity checks of the host functions *)
(* ===================================================================== *)

Example toISOString_epoch : toISOString 0 = "1970-01-01T00:00:00.000Z".
Proof. vm_compute. reflexivity. Qed.

Example toISOString_2023 : toISOString 1672531200000 = "2023-01-01T00:00:00.000Z".
Proof. vm_compute. reflexivity. Qed.

Example toISOString_leap : toISOString 951868799999 = "2000-02-29T23:59:59.999Z".
Proof. vm_compute. reflexivity. Qed.

Example toISOString_before_epoch : toISOString (-1) = "1969-12-31T23:59:59.999Z".
Proof. vm_compute. reflexivity. Qed.

Example toISOString_last_day : toISOString 8640000000000000 = "+275760-09-13T00:00:00.000Z".
Proof. vm_compute. reflexivity. Qed.

Example toISOString_year_zero : toISOString (-62167219200001) = "-000001-12-31T23:59:59.999Z".
Proof. vm_compute. reflexivity. Qed.

Example substr_of_draw : substr 2 9 "0.4fzyo82mvyr" = "4fzyo82mv".
Proof. reflexivity. Qed.

Example substr_of_zero_draw : substr 2 9 "0" = "".
Proof. reflexivity. Qed.

(** [(0.5).toString(36)] is ["0.i"]. *)
Example substr_of_half_draw : substr 2 9 "0.i" = "i".
Proof. reflexivity. Qed.

(* ===================================================================== *)
(** ** The state projector *)
(* ===================================================================== *)

(** C9. For every projector state [s] and id [i], the transition
    DELETE_PROFILE_SUCCESS(i) returns (without touching the world) a state
    whose profiles are those of [s] with every entry of id [i] removed, and
    whose current profile is null when the current profile of [s] has id
    [i] -- never another profile -- and the one of [s] otherwise; loading
    and error are kept. *)
Theorem reducer_delete_profile_success (s : ConfigurationState) (i : string) (w : World) :
  exists s',
    configurationReducer s (DELETE_PROFILE_SUCCESS i) w = Returns s' w /\
    profiles s' = filter (fun p => id p ≠ i) (profiles s) /\
    (forall p, p ∈ profiles s' <-> p ∈ profiles s /\ id p ≠ i) /\
    currentProfile s' =
      match currentProfile s with
      | Some c => if bool_decide (id c = i) then None else Some c
      | None => None
      end /\
    loading s' = loading s /\ error s' = error s.
Proof.
  eexists. split; [reflexivity|]. cbn.
  split; [reflexivity|].
  split; [intros p; rewrite list_elem_of_filter; tauto|].
  split; [|split; reflexivity].
  destruct (currentProfile s) as [c|]; cbn; [|reflexivity].
  destruct (decide (id c = i)) as [E|E].
  - rewrite !bool_decide_eq_true_2; congruence.
  - rewrite !bool_decide_eq_false_2; congruence.
Qed.

(** C10. For every projector state [s] and message [m], the transitions
    LOAD_ERROR(m) and SAVE_ERROR(m) change the loading and error fields
    only: the current profile and the profiles of the result are those of
    [s] (and the world is not touched). *)
Theorem reducer_error_frame (s : ConfigurationState) (m : string) (w : World) :
  exists s1 s2,
    configurationReducer s (LOAD_ERROR m) w = Returns s1 w /\
    configurationReducer s (SAVE_ERROR m) w = Returns s2 w /\
    currentProfile s1 = currentProfile s /\ profiles s1 = profiles s /\
    currentProfile s2 = currentProfile s /\ profiles s2 = profiles s /\
    loading s1 = false /\ error s1 = Some m /\
    loading s2 = false /\ error s2 = Some m.
Proof.
  do 2 eexists. split; [reflexivity|]. split; [reflexivity|].
  cbn. repeat split.
Qed.

(* ===================================================================== *)
(** ** ProfileStore: the four slot operations *)
(* ===================================================================== *)

Lemma loadCurrentProfile_run (w : World) :
  loadCurrentProfile w = Returns (stored_current (localStorage w)) w.
Proof.
  unfold loadCurrentProfile, try_catch, bind, getItem_CONFIG, gets, stored_current.
  destruct (CONFIG_STORAGE_KEY (localStorage w)) as [[p|[|c s]]|]; reflexivity.
Qed.

Lemma loadProfiles_run (w : World) :
  loadProfiles w = Returns (stored_profiles (localStorage w)) w.
Proof.
  unfold loadProfiles, try_catch, bind, getItem_PROFILES, gets, stored_profiles.
  destruct (PROFILES_STORAGE_KEY (localStorage w)) as [[l|[|c s]]|]; reflexivity.
Qed.

Lemma saveCurrentProfile_run (profile : ConfigurationProfile) (w : World) :
  saveCurrentProfile profile w = Returns tt (saved_current profile w).
Proof. reflexivity. Qed.

Lemma debounced_body_run (profile : ConfigurationProfile) (w : World) :
  debounced_body profile w = Returns tt (saved_current profile w).
Proof. reflexivity. Qed.

Lemma saveProfiles_run (l : list ConfigurationProfile) (w : World) :
  saveProfiles l w = Returns tt (saved_profiles l w).
Proof. reflexivity. Qed.

Lemma new_Date_toISOString_run (w : World) :
  new_Date_toISOString w
  = Returns (toISOString (clock w + elapsed w)) (ticked w).
Proof. reflexivity. Qed.

(** On items of the annotated shape: [loadCurrentProfile()] returns null when
    the current-pointer slot is absent and when its content does not decode;
    [loadProfiles()] returns the empty sequence when the list slot is absent
    or its content does not decode.  In every such world both return
    normally and leave the world as it was. *)
Theorem loads_degrade_and_never_throw (w : World) :
  loadCurrentProfile w
  = Returns (match CONFIG_STORAGE_KEY (localStorage w) with
             | None => None
             | Some (Malformed _) => None
             | Some (Encoded p) => Some p
             end) w
  /\
  loadProfiles w
  = Returns (match PROFILES_STORAGE_KEY (localStorage w) with
             | None => []
             | Some (Malformed _) => []
             | Some (Encoded l) => l
             end) w.
Proof.
  rewrite loadCurrentProfile_run, loadProfiles_run.
  unfold stored_current, stored_profiles.
  destruct (CONFIG_STORAGE_KEY (localStorage w)) as [[p|s]|];
    destruct (PROFILES_STORAGE_KEY (localStorage w)) as [[l|s']|]; split; reflexivity.
Qed.

Lemma untyped_loads_run (s : Untyped.Storage) :
  Untyped.loadCurrentProfile s
  = Returns (match Untyped.CONFIG_STORAGE_KEY s with
             | Some (Encoded j) => j
             | _ => JNull
             end) s
  /\
  Untyped.loadProfiles s
  = Returns (match Untyped.PROFILES_STORAGE_KEY s with
             | Some (Encoded j) => j
             | _ => JArr []
             end) s.
Proof.
  unfold Untyped.loadCurrentProfile, Untyped.loadProfiles, try_catch, bind, gets.
  destruct (Untyped.CONFIG_STORAGE_KEY s) as [[j|[|c t]]|];
    destruct (Untyped.PROFILES_STORAGE_KEY s) as [[j'|[|c' t']]|]; split; reflexivity.
Qed.

(** On text of the annotated shape the loads on arbitrary text return the
    JSON values of what the typed loads return. *)
Lemma untyped_loads_agree (w : World) :
  Untyped.loadCurrentProfile (erase (localStorage w))
  = Returns (match stored_current (localStorage w) with
             | Some p => toJSON p
             | None => JNull
             end) (erase (localStorage w))
  /\
  Untyped.loadProfiles (erase (localStorage w))
  = Returns (JArr (toJSON <$> stored_profiles (localStorage w))) (erase (localStorage w)).
Proof.
  destruct (untyped_loads_run (erase (localStorage w))) as [-> ->].
  unfold stored_current, stored_profiles, erase. cbn.
  destruct (CONFIG_STORAGE_KEY (localStorage w)) as [[p|t]|];
    destruct (PROFILES_STORAGE_KEY (localStorage w)) as [[l|t']|]; split; reflexivity.
Qed.



(** C2. For every profile [p], [saveCurrentProfile(p)] followed by
    [loadCurrentProfile()] returns a profile whose [updatedAt] is the clock
    value read by the save, and whose id, name, settings, createdAt and
    version are those of [p]. *)
Theorem save_then_load (p : ConfigurationProfile) (w : World) :
  exists now w1 q w2,
    new_Date_toISOString w = Returns now w1 /\
    (saveCurrentProfile p ;;; loadCurrentProfile) w = Returns (Some q) w2 /\
    updatedAt q = now /\
    id q = id p /\ name q = name p /\ settings q = settings p /\
    createdAt q = createdAt p /\ version q = version p.
Proof.
  exists (toISOString (clock w + elapsed w)).
  eexists. exists (with_updatedAt p (toISOString (clock w + elapsed w))).
  exists (saved_current p w).
  split; [apply new_Date_toISOString_run|].
  split.
  - unfold bind. rewrite saveCurrentProfile_run, loadCurrentProfile_run. reflexivity.
  - cbn. repeat split.
Qed.

(* ===================================================================== *)
(** ** ProfileManager *)
(* ===================================================================== *)

Lemma bind_Returns {S A B} (m : M S A) (k : A -> M S B) (s s' : S) (a : A) :
  m s = Returns a s' -> bind m k s = k a s'.
Proof. unfold bind. intros ->. reflexivity. Qed.

(** Run the first command of a sequence with the equation that describes it. *)
Ltac mstep eqn := rewrite (bind_Returns _ _ _ _ _ eqn).

Lemma findIndex_None (i : string) (l : list ConfigurationProfile) :
  findIndex i l = None <-> i ∉ id <$> l.
Proof.
  induction l as [|p l IH]; cbn.
  - split; [intros _; apply not_elem_of_nil | reflexivity].
  - rewrite not_elem_of_cons. case_bool_decide as E.
    + split; [discriminate | intros [N _]; congruence].
    + destruct (findIndex i l); cbn.
      * split; [discriminate|]. intros [_ N]. apply IH in N. discriminate.
      * split; [|reflexivity]. intros _. split; [congruence|]. apply IH. reflexivity.
Qed.

Lemma findIndex_Some (i : string) (l : list ConfigurationProfile) (n : nat) :
  findIndex i l = Some n ->
  exists p, l !! n = Some p /\ id p = i /\ i ∉ id <$> take n l.
Proof.
  revert n. induction l as [|p l IH]; cbn; intros n; [discriminate|].
  case_bool_decide as E.
  - intros [= <-]. exists p. cbn. split; [reflexivity|]. split; [assumption|].
    apply not_elem_of_nil.
  - destruct (findIndex i l) as [m|]; cbn; [|discriminate].
    intros [= <-]. destruct (IH m eq_refl) as (q & Hq & Hid & Hpre).
    exists q. cbn. split; [assumption|]. split; [assumption|].
    rewrite not_elem_of_cons. split; [congruence | assumption].
Qed.

Lemma findIndex_is_Some (i : string) (l : list ConfigurationProfile) :
  i ∈ id <$> l -> exists n, findIndex i l = Some n.
Proof.
  intros Hin. destruct (findIndex i l) as [n|] eqn:E; [eauto|].
  apply findIndex_None in E. contradiction.
Qed.

(** C3. For every stored list and every id [i]: when no entry has id [i],
    [deleteProfile(i)] returns false and changes nothing; otherwise it
    returns true after writing back the list without the entries of id [i]
    (exactly those are removed), and, when the profile in the current-pointer
    slot has id [i], it rewrites the slot with the first remaining entry
    (stamped by that write) if there is one and removes the slot's item if
    none remains; in the other cases the slot is left as it was. *)
Theorem deleteProfile_spec (i : string) (w : World) :
  let l := stored_profiles (localStorage w) in
  let l' := filter (fun p => id p ≠ i) l in
  (i ∉ id <$> l -> deleteProfile i w = Returns false w) /\
  (i ∈ id <$> l ->
   exists w',
     deleteProfile i w = Returns true w' /\
     PROFILES_STORAGE_KEY (localStorage w') = Some (Encoded l') /\
     (forall p, p ∈ l' <-> p ∈ l /\ id p ≠ i) /\
     match stored_current (localStorage w), l' with
     | Some c, first :: _ =>
         if bool_decide (id c = i) then
           exists now w1,
             new_Date_toISOString w = Returns now w1 /\
             CONFIG_STORAGE_KEY (localStorage w')
               = Some (Encoded (with_updatedAt first now)) /\
             journal w' = (journal w ++ [SetProfiles (Encoded l');
                                         SetConfig (Encoded (with_updatedAt first now))])%list
         else
           CONFIG_STORAGE_KEY (localStorage w') = CONFIG_STORAGE_KEY (localStorage w) /\
           journal w' = (journal w ++ [SetProfiles (Encoded l')])%list
     | Some c, [] =>
         if bool_decide (id c = i) then
           CONFIG_STORAGE_KEY (localStorage w') = None /\
           journal w' = (journal w ++ [SetProfiles (Encoded l'); RemoveConfig])%list
         else
           CONFIG_STORAGE_KEY (localStorage w') = CONFIG_STORAGE_KEY (localStorage w) /\
           journal w' = (journal w ++ [SetProfiles (Encoded l')])%list
     | None, _ =>
         CONFIG_STORAGE_KEY (localStorage w') = CONFIG_STORAGE_KEY (localStorage w) /\
         journal w' = (journal w ++ [SetProfiles (Encoded l')])%list
     end).
Proof.
  intros l l'. split.
  - intros Habs. apply findIndex_None in Habs.
    unfold deleteProfile. mstep (loadProfiles_run w). fold l. rewrite Habs. reflexivity.
  - intros Hin. destruct (findIndex_is_Some _ _ Hin) as [n Hn].
    unfold deleteProfile. mstep (loadProfiles_run w). fold l. rewrite Hn. fold l'.
    assert (Hmem : forall p, p ∈ l' <-> p ∈ l /\ id p ≠ i).
    { intros p. unfold l'. rewrite list_elem_of_filter. tauto. }
    mstep (saveProfiles_run l' w). mstep (loadCurrentProfile_run (saved_profiles l' w)).
    replace (stored_current (localStorage (saved_profiles l' w)))
      with (stored_current (localStorage w)) by reflexivity.
    destruct (stored_current (localStorage w)) as [c|].
    + destruct (bool_decide (id c = i)).
      * destruct l' as [|first rest].
        -- eexists. split; [reflexivity|]. cbn. rewrite <- app_assoc. auto.
        -- eexists. split; [reflexivity|]. split; [reflexivity|]. split; [assumption|].
           do 2 eexists. split; [reflexivity|]. cbn. rewrite <- app_assoc. auto.
      * eexists. split; [reflexivity|]. split; [reflexivity|]. split; [assumption|].
        destruct l'; auto.
    + eexists. split; [reflexivity|]. split; [reflexivity|]. split; [assumption|].
      destruct l'; auto.
Qed.

Lemma updateProfile_absent (i : string) (updates : ConfigurationUpdate.t) (w : World) :
  i ∉ id <$> stored_profiles (localStorage w) ->
  updateProfile i updates w = Returns None w.
Proof.
  intros Habs. apply findIndex_None in Habs.
  unfold updateProfile. mstep (loadProfiles_run w). rewrite Habs. reflexivity.
Qed.

(** The run of [updateProfile] on an id that the list holds at index [n]. *)
Lemma updateProfile_run (i : string) (updates : ConfigurationUpdate.t) (w : World)
    (n : nat) (old : ConfigurationProfile) :
  let l := stored_profiles (localStorage w) in
  let r := apply_updates old updates (toISOString (clock w + elapsed w)) in
  let w2 := saved_profiles (<[n := r]> l) (ticked w) in
  findIndex i l = Some n -> l !! n = Some old ->
  updateProfile i updates w
  = Returns (Some r)
      (match stored_current (localStorage w) with
       | Some c => if bool_decide (id c = i) then saved_current r w2 else w2
       | None => w2
       end).
Proof.
  intros l r w2 Hn Hold.
  unfold updateProfile. mstep (loadProfiles_run w). fold l. rewrite Hn, Hold.
  mstep (new_Date_toISOString_run w). fold r.
  mstep (saveProfiles_run (<[n := r]> l) (ticked w)). fold w2.
  mstep (loadCurrentProfile_run w2).
  replace (stored_current (localStorage w2)) with (stored_current (localStorage w))
    by reflexivity.
  destruct (stored_current (localStorage w)) as [c|]; [|reflexivity].
  destruct (bool_decide (id c = i)); reflexivity.
Qed.

(** C5. For every stored list, every id [i] in it and every update
    [{settings: {k: v}}], [updateProfile] returns the first entry of id [i]
    with key [k] of its settings set to [v] and every other key as it was,
    and stores it in place of that entry; for every id absent from the list
    and every update it returns null and leaves the world, hence the stored
    list, unchanged. *)
Theorem updateProfile_shallow_merge (i k : string) (v : any)
    (updates : ConfigurationUpdate.t) (w : World) :
  let l := stored_profiles (localStorage w) in
  let kv := {| ConfigurationUpdate.settings := Some {[k := v]};
               ConfigurationUpdate.name := None |} in
  (i ∉ id <$> l -> updateProfile i updates w = Returns None w) /\
  (i ∈ id <$> l ->
   exists n old r w',
     l !! n = Some old /\ id old = i /\ (i ∉ id <$> take n l) /\
     updateProfile i kv w = Returns (Some r) w' /\
     settings r !! k = Some v /\
     (forall k', k' ≠ k -> settings r !! k' = settings old !! k') /\
     id r = id old /\ name r = name old /\
     createdAt r = createdAt old /\ version r = version old /\
     stored_profiles (localStorage w') = <[n := r]> l).
Proof.
  intros l kv. split; [apply updateProfile_absent|].
  intros Hin. destruct (findIndex_is_Some _ _ Hin) as [n Hn].
  destruct (findIndex_Some _ _ _ Hn) as (old & Hold & Hid & Hfirst).
  exists n, old. do 2 eexists.
  split; [exact Hold|]. split; [exact Hid|]. split; [exact Hfirst|].
  split; [apply (updateProfile_run i kv w n old Hn Hold)|].
  cbn. unfold spread.
  split; [apply lookup_union_Some_l, lookup_singleton_eq|].
  split.
  { intros k' Hk'. apply lookup_union_r. apply lookup_singleton_ne. congruence. }
  repeat (split; [reflexivity|]).
  destruct (stored_current (localStorage w)) as [c|]; [|reflexivity].
  destruct (bool_decide (id c = i)); reflexivity.
Qed.

(** C6, as stated, fails: with the current profile [dark_profile] also the
    only list entry, and one millisecond passing between the stamping of the
    merged entry and the write of the pointer slot, [updateProfile] leaves
    the slot with an [updatedAt] that differs from the one of the list
    entry. *)
Lemma updateProfile_slot_stamp_differs :
  exists r q w',
    updateProfile "p1" theme_light
      (sample_world (Some (Encoded dark_profile)) (Some (Encoded [dark_profile])) [0; 1] [])
    = Returns (Some r) w' /\
    stored_profiles (localStorage w') = [r] /\
    stored_current (localStorage w') = Some q /\
    updatedAt r = "2023-01-01T00:00:00.000Z" /\
    updatedAt q = "2023-01-01T00:00:00.001Z" /\
    q ≠ r.
Proof.
  do 3 eexists.
  split; [vm_compute; reflexivity|].
  split; [reflexivity|]. split; [reflexivity|].
  split; [reflexivity|]. split; [reflexivity|].
  intros H. apply (f_equal updatedAt) in H. discriminate H.
Qed.

(** C6, amended. When [i] is the id of the profile in the current-pointer
    slot and of a list entry, [updateProfile(i, update)] leaves in the slot a
    profile that agrees with the updated list entry on id, name, settings,
    createdAt and version; the entry carries the clock value read when the
    update was merged and the slot the clock value read when the slot was
    written, so the two are identical whenever these two readings agree. *)
Theorem updateProfile_current_slot (i : string) (updates : ConfigurationUpdate.t)
    (w : World) (c : ConfigurationProfile) :
  i ∈ id <$> stored_profiles (localStorage w) ->
  stored_current (localStorage w) = Some c ->
  id c = i ->
  exists n r q t1 w1 t2 w2 w',
    new_Date_toISOString w = Returns t1 w1 /\
    new_Date_toISOString w1 = Returns t2 w2 /\
    updateProfile i updates w = Returns (Some r) w' /\
    findIndex i (stored_profiles (localStorage w)) = Some n /\
    stored_profiles (localStorage w') !! n = Some r /\
    stored_current (localStorage w') = Some q /\
    id q = id r /\ name q = name r /\ settings q = settings r /\
    createdAt q = createdAt r /\ version q = version r /\
    updatedAt r = t1 /\ updatedAt q = t2 /\
    (t2 = t1 -> q = r).
Proof.
  intros Hin Hc Hid. destruct (findIndex_is_Some _ _ Hin) as [n Hn].
  destruct (findIndex_Some _ _ _ Hn) as (old & Hold & _ & _).
  pose proof (updateProfile_run i updates w n old Hn Hold) as Hrun.
  cbv zeta in Hrun. rewrite Hc, bool_decide_eq_true_2 in Hrun by exact Hid.
  set (t1 := toISOString (clock w + elapsed w)) in *.
  set (r := apply_updates old updates t1) in *.
  set (t2 := toISOString (clock (ticked w) + elapsed (ticked w))).
  exists n, r, (with_updatedAt r t2), t1, (ticked w), t2, (ticked (ticked w)).
  eexists.
  split; [apply new_Date_toISOString_run|].
  split; [apply new_Date_toISOString_run|].
  split; [exact Hrun|]. split; [exact Hn|].
  split.
  { cbn. apply list_lookup_insert_eq. eapply lookup_lt_Some, Hold. }
  split; [reflexivity|].
  repeat (split; [reflexivity|]).
  intros ->. reflexivity.
Qed.

Lemma updateProfile_current_slot_witness :
  exists n r q t1 w1 t2 w2 w',
    let w := sample_world (Some (Encoded dark_profile))
                          (Some (Encoded [light_profile; dark_profile])) [0; 1] [] in
    new_Date_toISOString w = Returns t1 w1 /\
    new_Date_toISOString w1 = Returns t2 w2 /\
    updateProfile "p1" theme_light w = Returns (Some r) w' /\
    findIndex "p1" (stored_profiles (localStorage w)) = Some n /\
    stored_profiles (localStorage w') !! n = Some r /\
    stored_current (localStorage w') = Some q /\
    id q = id r /\ name q = name r /\ settings q = settings r /\
    createdAt q = createdAt r /\ version q = version r /\
    updatedAt r = t1 /\ updatedAt q = t2 /\
    (t2 = t1 -> q = r).
Proof.
  apply (updateProfile_current_slot "p1" theme_light
           (sample_world (Some (Encoded dark_profile))
                         (Some (Encoded [light_profile; dark_profile])) [0; 1] [])
           dark_profile).
  - cbn. right. left.
  - reflexivity.
  - reflexivity.
Defined.

Lemma find_None (i : string) (l : list ConfigurationProfile) :
  find i l = None <-> i ∉ id <$> l.
Proof.
  induction l as [|p l IH]; cbn.
  - split; [intros _; apply not_elem_of_nil | reflexivity].
  - rewrite not_elem_of_cons. case_bool_decide as E.
    + split; [discriminate | intros [N _]; congruence].
    + rewrite IH. split; [intros N; split; [congruence | exact N] | intros [_ N]; exact N].
Qed.

Lemma find_Some (i : string) (l : list ConfigurationProfile) (p : ConfigurationProfile) :
  find i l = Some p ->
  exists n, l !! n = Some p /\ id p = i /\ i ∉ id <$> take n l.
Proof.
  induction l as [|q l IH]; cbn; [discriminate|].
  case_bool_decide as E.
  - intros [= ->]. exists 0%nat. cbn. split; [reflexivity|]. split; [assumption|].
    apply not_elem_of_nil.
  - intros H. destruct (IH H) as (n & Hn & Hid & Hpre).
    exists (S n). cbn. split; [assumption|]. split; [assumption|].
    rewrite not_elem_of_cons. split; [congruence | assumption].
Qed.

Lemma lift_Returns {A} (m : M World A) (app : App) (a : A) (w' : World) :
  m (world app) = Returns a w' ->
  lift m app = Returns a {| state := state app; world := w' |}.
Proof. unfold lift. intros ->. reflexivity. Qed.

(** C4. [switchProfile(i)] fails with the not-found error, leaving the
    durable state (indeed the whole world) unchanged, whenever [i] is absent
    from the stored list.  When [i] is present, with [target] its first
    entry, the call first writes the in-memory outgoing current profile (if
    the projector holds one) to the current-pointer slot, then writes
    [target] to the slot, in that order and each stamped by its write, and
    makes [target] the current profile of the projector. *)
Theorem switchProfile_spec (i : string) (app : App) :
  let w := world app in
  let l := stored_profiles (localStorage w) in
  (i ∉ id <$> l ->
   exists app',
     switchProfile i app
       = Throws (Error ("Profile with id " +:+ i +:+ " not found")) app' /\
     world app' = w /\
     currentProfile (state app') = currentProfile (state app) /\
     profiles (state app') = profiles (state app) /\
     error (state app')
       = Some ("Failed to switch profile: Profile with id " +:+ i +:+ " not found")) /\
  (i ∈ id <$> l ->
   exists n target app' t1 w1 t2 w2,
     l !! n = Some target /\ id target = i /\ (i ∉ id <$> take n l) /\
     switchProfile i app = Returns tt app' /\
     new_Date_toISOString w = Returns t1 w1 /\
     new_Date_toISOString w1 = Returns t2 w2 /\
     currentProfile (state app') = Some target /\
     profiles (state app') = profiles (state app) /\
     PROFILES_STORAGE_KEY (localStorage (world app'))
       = PROFILES_STORAGE_KEY (localStorage w) /\
     match currentProfile (state app) with
     | Some outgoing =>
         journal (world app')
           = (journal w ++ [SetConfig (Encoded (with_updatedAt outgoing t1));
                            SetConfig (Encoded (with_updatedAt target t2))])%list /\
         CONFIG_STORAGE_KEY (localStorage (world app'))
           = Some (Encoded (with_updatedAt target t2))
     | None =>
         journal (world app')
           = (journal w ++ [SetConfig (Encoded (with_updatedAt target t1))])%list /\
         CONFIG_STORAGE_KEY (localStorage (world app'))
           = Some (Encoded (with_updatedAt target t1))
     end).
Proof.
  intros w l. split.
  - intros Habs. apply find_None in Habs.
    unfold switchProfile, try_catch.
    mstep (lift_Returns _ app _ _ (loadProfiles_run (world app))).
    fold w l. rewrite Habs. cbn.
    eexists. split; [reflexivity|]. cbn. destruct app; cbn. repeat split.
  - intros Hin.
    destruct (find i l) as [target|] eqn:Hfind;
      [|apply find_None in Hfind; contradiction].
    destruct (find_Some _ _ _ Hfind) as (n & Hn & Hid & Hfirst).
    assert (Hrun : switchProfile i app
                   = (st <- gets state ;;
                      (match currentProfile st with
                       | Some current => lift (saveCurrentProfile current)
                       | None => ret tt
                       end) ;;;
                      lift (saveCurrentProfile target) ;;;
                      dispatch (SWITCH_PROFILE_SUCCESS target))
                       {| state := state app; world := w |}).
    { unfold switchProfile, try_catch.
      mstep (lift_Returns _ app _ _ (loadProfiles_run (world app))).
      fold w l. rewrite Hfind.
      destruct (currentProfile (state app)) eqn:Hcur; cbn; rewrite Hcur; reflexivity. }
    destruct (currentProfile (state app)) as [outgoing|] eqn:Hcur;
      cbn in Hrun; rewrite Hcur in Hrun; cbn in Hrun;
      exists n, target; eexists;
      exists (toISOString (clock w + elapsed w)), (ticked w),
             (toISOString (clock (ticked w) + elapsed (ticked w))), (ticked (ticked w));
      (split; [exact Hn|]); (split; [exact Hid|]); (split; [exact Hfirst|]);
      (split; [exact Hrun|]);
      (split; [apply new_Date_toISOString_run|]);
      (split; [apply new_Date_toISOString_run|]);
      cbn; rewrite <- ?app_assoc; repeat split.
Qed.

(** *** Generated ids *)

Lemma append_nil (b : string) : "" +:+ b = b.
Proof. reflexivity. Qed.

Lemma append_cons (c : ascii) (a b : string) : String c a +:+ b = String c (a +:+ b).
Proof. reflexivity. Qed.

Lemma occurs_app (c : ascii) (a b : string) :
  occurs c (a +:+ b) = occurs c a || occurs c b.
Proof.
  induction a as [|c' a IH]; [reflexivity|].
  rewrite append_cons. cbn. rewrite IH. apply orb_assoc.
Qed.

Lemma pretty_N_go_no_underscore (x : N) (s : string) :
  occurs "_" s = false -> occurs "_" (pretty_N_go x s) = false.
Proof.
  revert s. induction (N.lt_wf_0 x) as [x _ IH]; intros s Hs.
  destruct (decide (x = 0%N)) as [->|Hx].
  - rewrite pretty_N_go_0. exact Hs.
  - rewrite pretty_N_go_step by lia. apply IH.
    + apply N.div_lt; lia.
    + cbn. rewrite Hs, orb_false_r. apply bool_decide_eq_false_2.
      unfold pretty_N_char. repeat case_match; discriminate.
Qed.

Lemma pretty_Z_no_underscore (z : Z) : occurs "_" (pretty z) = false.
Proof.
  assert (HN : forall n : N, occurs "_" (pretty n) = false).
  { intros n. unfold pretty, pretty_N. case_decide; [reflexivity|].
    apply pretty_N_go_no_underscore. reflexivity. }
  destruct z as [|q|q]; [reflexivity | apply (HN (Npos q)) |].
  change (pretty (Z.neg q)) with ("-" +:+ pretty (Npos q)).
  rewrite occurs_app, (HN (Npos q)). reflexivity.
Qed.

(** A string is cut in one way only at its first underscore. *)
Lemma cut_at_underscore (a b s1 s2 : string) :
  occurs "_" a = false -> occurs "_" b = false ->
  a +:+ String "_" s1 = b +:+ String "_" s2 -> a = b /\ s1 = s2.
Proof.
  revert b. induction a as [|c a IH]; intros [|d b] Ha Hb E.
  - injection E as ->. split; reflexivity.
  - rewrite append_nil, append_cons in E. injection E as <- _.
    cbn in Hb. rewrite bool_decide_eq_true_2 in Hb by reflexivity. discriminate.
  - rewrite append_nil, append_cons in E. injection E as -> _.
    cbn in Ha. rewrite bool_decide_eq_true_2 in Ha by reflexivity. discriminate.
  - rewrite !append_cons in E. injection E as -> E.
    cbn in Ha, Hb.
    apply orb_false_iff in Ha as [_ Ha]. apply orb_false_iff in Hb as [_ Hb].
    destruct (IH b Ha Hb E) as [-> ->]. split; reflexivity.
Qed.

Lemma append_inj_l (p a b : string) : p +:+ a = p +:+ b -> a = b.
Proof.
  induction p as [|c p IH]; [exact (fun E => E)|].
  rewrite !append_cons. intros [= E]. exact (IH E).
Qed.

Lemma generated_id_inj (ms ms' : Z) (s s' : string) :
  "profile_" +:+ pretty ms +:+ "_" +:+ s = "profile_" +:+ pretty ms' +:+ "_" +:+ s' ->
  ms = ms' /\ s = s'.
Proof.
  intros E. apply append_inj_l in E.
  change (pretty ms +:+ String "_" s = pretty ms' +:+ String "_" s') in E.
  apply cut_at_underscore in E as [E ->]; try apply pretty_Z_no_underscore.
  split; [|reflexivity]. apply (inj pretty). exact E.
Qed.

(** *** createProfile *)

Lemma initial_settings_run (req : NewProfileRequest.t) (w : World) :
  (if bool_decide (NewProfileRequest.copyFromCurrent req ≠ Some false)
   then current <- loadCurrentProfile ;;
        ret (match current with Some c => settings c | None => ∅ end)
   else ret ∅) w
  = Returns (match NewProfileRequest.copyFromCurrent req,
                   stored_current (localStorage w) with
             | Some false, _ => ∅
             | _, Some c => settings c
             | _, None => ∅
             end) w.
Proof.
  destruct (NewProfileRequest.copyFromCurrent req) as [[|]|].
  - rewrite bool_decide_eq_true_2 by discriminate.
    mstep (loadCurrentProfile_run w). reflexivity.
  - rewrite bool_decide_eq_false_2 by (intros N; apply N; reflexivity). reflexivity.
  - rewrite bool_decide_eq_true_2 by discriminate.
    mstep (loadCurrentProfile_run w). reflexivity.
Qed.

Lemma createProfile_run (req : NewProfileRequest.t) (w : World) :
  let ms := clock w + elapsed w in
  let r := match random w with [] => "0" | r :: _ => r end in
  let w2 := drawn (ticked w) in
  let now := toISOString (clock w2 + elapsed w2) in
  let p := {| id := "profile_" +:+ pretty ms +:+ "_" +:+ substr 2 9 r;
              name := NewProfileRequest.name req;
              settings :=
                match NewProfileRequest.copyFromCurrent req,
                      stored_current (localStorage w) with
                | Some false, _ => ∅
                | _, Some c => settings c
                | _, None => ∅
                end;
              createdAt := now; updatedAt := now; version := 1 |} in
  let l := stored_profiles (localStorage w) in
  let w4 := saved_profiles (l ++ [p]) (ticked w2) in
  createProfile req w
  = Returns p (if bool_decide (length l = 0%nat) then saved_current p w4 else w4).
Proof.
  intros ms r w2 now p l w4.
  unfold createProfile.
  mstep (eq_refl : Date_now w = Returns ms (ticked w)).
  mstep (eq_refl : Math_random_toString36 (ticked w) = Returns r w2).
  mstep (new_Date_toISOString_run w2). fold now.
  mstep (initial_settings_run req (ticked w2)).
  change (stored_current (localStorage (ticked w2)))
    with (stored_current (localStorage w)).
  fold p.
  mstep (loadProfiles_run (ticked w2)).
  change (stored_profiles (localStorage (ticked w2))) with l.
  mstep (saveProfiles_run (l ++ [p]) (ticked w2)). fold w4.
  destruct (bool_decide (length l = 0%nat)); reflexivity.
Qed.

(** C7.  The code breaks the claim: from an empty store, two calls in the
    same millisecond that both draw 0.5 return the same id, so the id of the
    second profile -- the "unique identifier for the profile" of
    [types/config.ts] -- is already in the stored list when it is created. *)
Lemma createProfile_id_collides :
  exists p1 w1 p2 w2,
    let req := {| NewProfileRequest.name := "Work";
                  NewProfileRequest.copyFromCurrent := None |} in
    createProfile req (sample_world None None [] ["0.i"; "0.i"]) = Returns p1 w1 /\
    createProfile req w1 = Returns p2 w2 /\
    id p2 = "profile_1672531200000_i" /\
    id p2 ∈ id <$> stored_profiles (localStorage w1).
Proof.
  do 4 eexists. cbv zeta.
  split; [vm_compute; reflexivity|].
  split; [vm_compute; reflexivity|].
  split; [reflexivity|].
  cbn. left.
Qed.

Lemma findIndex_snoc_fresh (l : list ConfigurationProfile) (p : ConfigurationProfile) :
  id p ∉ id <$> l -> findIndex (id p) (l ++ [p]) = Some (length l).
Proof.
  induction l as [|q l IH]; cbn.
  - intros _. rewrite bool_decide_eq_true_2 by reflexivity. reflexivity.
  - rewrite not_elem_of_cons. intros [Hq Hl].
    rewrite bool_decide_eq_false_2 by congruence.
    rewrite (IH Hl). reflexivity.
Qed.

(** A later update of the new profile leaves the current-pointer slot alone. *)
Lemma update_new_keeps_source (l : list ConfigurationProfile)
    (p c : ConfigurationProfile) (updates : ConfigurationUpdate.t) (w' : World) :
  stored_profiles (localStorage w') = (l ++ [p])%list ->
  stored_current (localStorage w') = Some c ->
  id c ≠ id p -> id p ∉ id <$> l ->
  exists r' w'',
    updateProfile (id p) updates w' = Returns (Some r') w'' /\
    stored_current (localStorage w'') = Some c.
Proof.
  intros Hl Hc Hne Hfresh.
  pose proof (updateProfile_run (id p) updates w' (length l) p) as Hrun.
  cbv zeta in Hrun. rewrite Hl, Hc, bool_decide_eq_false_2 in Hrun by exact Hne.
  do 2 eexists. split.
  - apply Hrun; [apply findIndex_snoc_fresh, Hfresh|].
    rewrite lookup_app_r, Nat.sub_diag by lia. reflexivity.
  - exact Hc.
Qed.

(** A later update of the source profile leaves the new profile's entry alone. *)
Lemma update_source_keeps_new (l : list ConfigurationProfile)
    (p : ConfigurationProfile) (i : string) (updates : ConfigurationUpdate.t)
    (w' : World) :
  stored_profiles (localStorage w') = (l ++ [p])%list ->
  i ≠ id p ->
  exists res w'',
    updateProfile i updates w' = Returns res w'' /\
    last (stored_profiles (localStorage w'')) = Some p.
Proof.
  intros Hl Hne.
  destruct (findIndex i (l ++ [p])) as [n|] eqn:Hfind.
  - destruct (findIndex_Some _ _ _ Hfind) as (old & Hold & Hid & _).
    assert (Hn : (n < length l)%nat).
    { destruct (decide (n < length l)%nat) as [|Hge]; [assumption|].
      apply lookup_lt_Some in Hold as Hlt. rewrite length_app in Hlt. cbn in Hlt.
      replace n with (length l) in Hold by lia.
      rewrite lookup_app_r, Nat.sub_diag in Hold by lia.
      injection Hold as <-. congruence. }
    pose proof (updateProfile_run i updates w' n old) as Hrun.
    cbv zeta in Hrun. rewrite Hl in Hrun. specialize (Hrun Hfind Hold).
    do 2 eexists. split; [exact Hrun|].
    rewrite insert_app_l by exact Hn.
    destruct (stored_current (localStorage w')) as [c|];
      [destruct (bool_decide (id c = i))|]; cbn; apply last_snoc.
  - exists None, w'. split.
    + apply updateProfile_absent. rewrite Hl. apply findIndex_None, Hfind.
    + rewrite Hl. apply last_snoc.
Qed.

(** What [createProfile] returns and stores.  The id is
    [profile_<clock>_<suffix>], built from the clock and the random draw and
    not compared with the stored ids: it is the id only of profiles
    generated at the same clock value with the same suffix.  createdAt and
    updatedAt are the clock value read next, the version is 1, and the
    settings are those decoded from the current-pointer slot when
    [copyFromCurrent !== false] (the empty bag when the flag is false or no
    current profile decodes); the profile is appended to the stored list. *)
Theorem createProfile_spec (req : NewProfileRequest.t) (w : World) :
  exists ms w1 r w2 now w3 p w',
    Date_now w = Returns ms w1 /\
    Math_random_toString36 w1 = Returns r w2 /\
    new_Date_toISOString w2 = Returns now w3 /\
    createProfile req w = Returns p w' /\
    id p = "profile_" +:+ pretty ms +:+ "_" +:+ substr 2 9 r /\
    (forall ms' s', id p = "profile_" +:+ pretty ms' +:+ "_" +:+ s' ->
                    ms' = ms /\ s' = substr 2 9 r) /\
    name p = NewProfileRequest.name req /\
    createdAt p = now /\ updatedAt p = now /\ version p = 1 /\
    settings p = match NewProfileRequest.copyFromCurrent req,
                       stored_current (localStorage w) with
                 | Some false, _ => ∅
                 | _, Some c => settings c
                 | _, None => ∅
                 end /\
    stored_profiles (localStorage w')
      = (stored_profiles (localStorage w) ++ [p])%list /\
    (forall c updates,
        stored_current (localStorage w) = Some c -> id c ≠ id p ->
        stored_profiles (localStorage w) ≠ [] ->
        id p ∉ id <$> stored_profiles (localStorage w) ->
        exists r' w'',
          updateProfile (id p) updates w' = Returns (Some r') w'' /\
          stored_current (localStorage w'') = Some c) /\
    (forall c updates,
        stored_current (localStorage w) = Some c -> id c ≠ id p ->
        exists res w'',
          updateProfile (id c) updates w' = Returns res w'' /\
          last (stored_profiles (localStorage w'')) = Some p).
Proof.
  pose proof (createProfile_run req w) as Hrun. cbv zeta in Hrun.
  set (ms := clock w + elapsed w) in *.
  set (r := match random w with [] => "0" | r :: _ => r end) in *.
  set (w2 := drawn (ticked w)) in *.
  set (now := toISOString (clock w2 + elapsed w2)) in *.
  set (l := stored_profiles (localStorage w)) in *.
  match type of Hrun with _ = Returns ?q _ => set (p := q) in * end.
  set (w4 := saved_profiles (l ++ [p]) (ticked w2)) in *.
  assert (Hlist : forall b : bool,
             stored_profiles (localStorage (if b then saved_current p w4 else w4))
             = (l ++ [p])%list).
  { intros [|]; reflexivity. }
  exists ms, (ticked w), r, w2, now, (ticked w2), p. eexists.
  split; [reflexivity|]. split; [reflexivity|].
  split; [apply new_Date_toISOString_run|].
  split; [exact Hrun|].
  split; [reflexivity|].
  split.
  { intros ms' s' E. apply generated_id_inj in E as [-> ->]. split; reflexivity. }
  do 5 (split; [reflexivity|]).
  split; [apply Hlist|].
  split.
  - intros c updates Hc Hne Hnonempty Hfresh.
    apply (update_new_keeps_source l); [apply Hlist| |exact Hne|exact Hfresh].
    rewrite bool_decide_eq_false_2.
    + exact Hc.
    + intros Hlen. apply Hnonempty. apply nil_length_inv, Hlen.
  - intros c updates Hc Hne.
    apply (update_source_keeps_new l); [apply Hlist|exact Hne].
Qed.

(* ===================================================================== *)
(** ** AutosaveCoalescer *)
(* ===================================================================== *)

Lemma owned_initial (current : option (text ConfigurationProfile))
    (stored : option (text (list ConfigurationProfile)))
    (lags : list Z) (draws : list string) :
  owned (sample_world current stored lags draws).
Proof. left. reflexivity. Qed.

Lemma filter_self (t : timer) : filter (fun t' => handle t' ≠ handle t) [t] = [].
Proof.
  rewrite filter_cons, decide_False by (intros N; apply N; reflexivity).
  apply filter_nil.
Qed.

Lemma pending_owned (p : ConfigurationProfile) (left : Z) (w : World) :
  pending p left w -> owned w.
Proof. intros (h & Ht & Hh). right. eexists. split; [exact Ht | exact Hh]. Qed.

(** A request cancels the pending flush, if any, and arms its own. *)
Lemma autoSave_run (p : ConfigurationProfile) (w : World) :
  owned w ->
  exists w',
    autoSaveCurrentProfile p w = Returns tt w' /\
    pending p 5000 w' /\
    journal w' = journal w /\ localStorage w' = localStorage w /\
    clock w' = clock w /\ lag w' = lag w.
Proof.
  intros Hown.
  unfold autoSaveCurrentProfile, debouncedSaveCurrentProfile, executedFunction.
  assert (Hclear : clearTimeout (timeout w) w
                   = Returns tt (set_timers [] (next_handle w) w)).
  { destruct w as [ls j c lg rd ts nh tmo]. unfold owned in Hown. cbn in Hown |- *.
    destruct Hown as [-> | (t & -> & ->)].
    - destruct tmo; reflexivity.
    - unfold clearTimeout, modify. cbn [timers next_handle].
      rewrite filter_self. reflexivity. }
  mstep (eq_refl : gets timeout w = Returns (timeout w) w).
  mstep Hclear.
  eexists. split; [reflexivity|]. cbn.
  split; [|repeat split].
  exists (next_handle w). cbn. split; reflexivity.
Qed.

Lemma run_timers_wait (t : timer) (fuel : nat) (target : Z) (w : World) :
  timers w = [t] -> target < due t ->
  run_timers fuel target w = Returns tt w.
Proof.
  intros Ht Hlt. destruct fuel as [|fuel]; [reflexivity|].
  cbn [run_timers].
  mstep (eq_refl : gets timers w = Returns (timers w) w).
  rewrite Ht. cbn [earliest].
  rewrite bool_decide_eq_false_2 by lia. reflexivity.
Qed.

(** The world after the timer task of [t] has run at its due time. *)
Lemma run_timers_fire (t : timer) (fuel : nat) (target : Z) (w : World) :
  timers w = [t] -> timeout w = Some (handle t) -> due t <= target ->
  run_timers (S fuel) target w
  = Returns tt
      (saved_current (args t)
         (set_clock (Z.max (clock w) (due t)) (lag w)
            (set_timers [] (next_handle w) w))).
Proof.
  intros Ht Hh Hle.
  cbn [run_timers].
  mstep (eq_refl : gets timers w = Returns (timers w) w).
  rewrite Ht. cbn [earliest].
  rewrite bool_decide_eq_true_2 by lia.
  unfold later, try_catch, bind, modify, gets, clearTimeout.
  cbn [timers timeout next_handle set_timers set_clock].
  rewrite Ht, Hh, filter_self.
  unfold modify. cbn [timers set_clock set_timers]. rewrite filter_nil.
  rewrite debounced_body_run.
  destruct fuel; [reflexivity|].
  cbn [run_timers]. unfold bind, gets. cbn [timers saved_current set_storage ticked set_clock set_timers earliest].
  reflexivity.
Qed.

(** Less time than the pending flush needs goes by: nothing happens. *)
Lemma elapse_short (p : ConfigurationProfile) (ms left : Z) (w : World) :
  pending p left w ->
  Z.max 0 ms < left ->
  exists w',
    elapse ms w = Returns tt w' /\
    pending p (left - Z.max 0 ms) w' /\
    journal w' = journal w /\ localStorage w' = localStorage w /\
    clock w' = clock w + Z.max 0 ms /\ lag w' = lag w.
Proof.
  intros (h & Ht & Hh) Hlt.
  unfold elapse.
  mstep (eq_refl : gets clock w = Returns (clock w) w).
  mstep (eq_refl : gets (fun w => length (timers w)) w = Returns (length (timers w)) w).
  mstep (run_timers_wait _ (length (timers w)) (clock w + Z.max 0 ms) w Ht
           ltac:(cbn; lia)).
  eexists. split; [reflexivity|]. unfold pending. cbn.
  rewrite (Z.max_r (clock w)) by lia.
  split; [|repeat split].
  exists h. rewrite Ht, Hh. split; [|reflexivity].
  do 2 f_equal. lia.
Qed.

(** The pending flush comes due: it runs once, and the queue is idle again. *)
Lemma elapse_flush (p : ConfigurationProfile) (ms left : Z) (w : World) :
  pending p left w ->
  0 <= left <= Z.max 0 ms ->
  exists w',
    elapse ms w = Returns tt w' /\
    timers w' = [] /\
    journal w' = (journal w ++ [SetConfig (Encoded
                    (with_updatedAt p (toISOString (clock w + left + elapsed w))))])%list /\
    CONFIG_STORAGE_KEY (localStorage w')
      = Some (Encoded (with_updatedAt p (toISOString (clock w + left + elapsed w)))) /\
    PROFILES_STORAGE_KEY (localStorage w') = PROFILES_STORAGE_KEY (localStorage w).
Proof.
  intros (h & Ht & Hh) Hle.
  unfold elapse.
  mstep (eq_refl : gets clock w = Returns (clock w) w).
  mstep (eq_refl : gets (fun w => length (timers w)) w = Returns (length (timers w)) w).
  replace (length (timers w)) with 1%nat by (rewrite Ht; reflexivity).
  mstep (run_timers_fire _ 0 (clock w + Z.max 0 ms) w Ht Hh ltac:(cbn; lia)).
  eexists. split; [reflexivity|]. cbn.
  rewrite (Z.max_r (clock w)) by lia.
  repeat split.
Qed.

Lemma elapse_idle (ms : Z) (w : World) :
  timers w = [] ->
  exists w',
    elapse ms w = Returns tt w' /\
    timers w' = [] /\ journal w' = journal w /\ localStorage w' = localStorage w.
Proof.
  intros Ht. unfold elapse.
  mstep (eq_refl : gets clock w = Returns (clock w) w).
  mstep (eq_refl : gets (fun w => length (timers w)) w = Returns (length (timers w)) w).
  rewrite Ht. cbn [length run_timers].
  eexists. split; [reflexivity|]. cbn. rewrite Ht. repeat split.
Qed.

Lemma idle_idle (waits : list Z) (w : World) :
  timers w = [] ->
  exists w',
    idle waits w = Returns tt w' /\
    timers w' = [] /\ journal w' = journal w /\ localStorage w' = localStorage w.
Proof.
  revert w. induction waits as [|ms waits IH]; intros w Ht.
  - exists w. repeat split. exact Ht.
  - destruct (elapse_idle ms w Ht) as (w1 & Hrun & Ht1 & Hj1 & Hs1).
    destruct (IH w1 Ht1) as (w2 & Hrun2 & Ht2 & Hj2 & Hs2).
    exists w2. cbn [idle]. mstep Hrun.
    split; [exact Hrun2|]. split; [exact Ht2|].
    split; congruence.
Qed.

Lemma elapsed_same_lag (w w' : World) : lag w' = lag w -> elapsed w' = elapsed w.
Proof. unfold elapsed. intros ->. reflexivity. Qed.

(** A quiet period shorter than the pending flush needs: no write. *)
Lemma idle_short (p : ConfigurationProfile) (waits : list Z) (left : Z) (w : World) :
  pending p left w -> total waits < left ->
  exists w',
    idle waits w = Returns tt w' /\
    pending p (left - total waits) w' /\
    journal w' = journal w /\ localStorage w' = localStorage w.
Proof.
  revert left w. induction waits as [|ms waits IH]; intros left w Hp Hlt; cbn [total] in *.
  - exists w. split; [reflexivity|]. rewrite Z.sub_0_r. repeat split. exact Hp.
  - assert (Hnn : 0 <= total waits).
    { clear. induction waits as [|m ws IHw]; cbn [total]; lia. }
    destruct (elapse_short p ms left w Hp ltac:(lia)) as (w1 & Hrun & Hp1 & Hj1 & Hs1 & _).
    destruct (IH (left - Z.max 0 ms) w1 Hp1 ltac:(lia)) as (w2 & Hrun2 & Hp2 & Hj2 & Hs2).
    exists w2. cbn [idle]. mstep Hrun.
    split; [exact Hrun2|].
    split; [replace (left - (Z.max 0 ms + total waits))
              with (left - Z.max 0 ms - total waits) by lia; exact Hp2|].
    split; congruence.
Qed.

Lemma total_nonneg (waits : list Z) : 0 <= total waits.
Proof. induction waits as [|m ws IH]; cbn [total]; lia. Qed.

(** A quiet period at least as long as the pending flush needs: one write,
    of the pending profile, stamped when the flush runs. *)
Lemma idle_flush (p : ConfigurationProfile) (waits : list Z) (left : Z) (w : World) :
  pending p left w -> 0 < left <= total waits ->
  exists w',
    idle waits w = Returns tt w' /\
    timers w' = [] /\
    journal w' = (journal w ++ [SetConfig (Encoded
                    (with_updatedAt p (toISOString (clock w + left + elapsed w))))])%list /\
    CONFIG_STORAGE_KEY (localStorage w')
      = Some (Encoded (with_updatedAt p (toISOString (clock w + left + elapsed w)))) /\
    PROFILES_STORAGE_KEY (localStorage w') = PROFILES_STORAGE_KEY (localStorage w).
Proof.
  revert left w. induction waits as [|ms waits IH]; intros left w Hp Hle; cbn [total] in *.
  - lia.
  - pose proof (total_nonneg waits) as Hnn.
    destruct (decide (Z.max 0 ms < left)) as [Hshort|Hlong].
    + destruct (elapse_short p ms left w Hp Hshort) as (w1 & Hrun & Hp1 & Hj1 & Hs1 & Hc1 & Hl1).
      destruct (IH (left - Z.max 0 ms) w1 Hp1 ltac:(lia))
        as (w2 & Hrun2 & Ht2 & Hj2 & Hcfg2 & Hpr2).
      exists w2. cbn [idle]. mstep Hrun.
      split; [exact Hrun2|]. split; [exact Ht2|].
      rewrite (elapsed_same_lag _ _ Hl1), Hc1, Hj1 in *.
      replace (clock w + Z.max 0 ms + (left - Z.max 0 ms)) with (clock w + left) in * by lia.
      rewrite Hs1 in Hpr2.
      split; [exact Hj2|]. split; [exact Hcfg2 | exact Hpr2].
    + destruct (elapse_flush p ms left w Hp ltac:(lia)) as (w1 & Hrun & Ht1 & Hj1 & Hcfg1 & Hpr1).
      destruct (idle_idle waits w1 Ht1) as (w2 & Hrun2 & Ht2 & Hj2 & Hs2).
      exists w2. cbn [idle]. mstep Hrun.
      split; [exact Hrun2|]. split; [exact Ht2|].
      rewrite Hj2, Hs2. split; [exact Hj1|]. split; [exact Hcfg1 | exact Hpr1].
Qed.

(** A burst of requests less than 5000 ms apart writes nothing and leaves
    the flush of its last request pending. *)
Lemma burst_run (first : ConfigurationProfile) (rest : list (Z * ConfigurationProfile))
    (w : World) :
  owned w ->
  Forall (fun gp => gp.1 < 5000) rest ->
  exists w',
    burst first rest w = Returns tt w' /\
    pending (last_request first rest) 5000 w' /\
    journal w' = journal w /\ localStorage w' = localStorage w.
Proof.
  revert first w. induction rest as [|[gap next] rest IH]; intros first w Hown Hgaps.
  - destruct (autoSave_run first w Hown) as (w1 & Hrun & Hp & Hj & Hs & _).
    exists w1. cbn [burst last_request]. mstep Hrun. repeat split; assumption.
  - apply Forall_cons in Hgaps as [Hgap Hgaps]. cbn [fst] in Hgap.
    destruct (autoSave_run first w Hown) as (w1 & Hrun & Hp & Hj & Hs & _).
    destruct (elapse_short first gap 5000 w1 Hp ltac:(lia))
      as (w2 & Hrun2 & Hp2 & Hj2 & Hs2 & _).
    destruct (IH next w2 (pending_owned _ _ _ Hp2) Hgaps) as (w3 & Hrun3 & Hp3 & Hj3 & Hs3).
    exists w3. cbn [burst last_request]. mstep Hrun. mstep Hrun2.
    split; [exact Hrun3|]. split; [exact Hp3|]. split; congruence.
Qed.

(** The invariant holds in every world the program reaches: it is kept by
    the passing of time and (see [autoSave_run]) by every request. *)
Lemma owned_elapse (ms : Z) (w : World) :
  owned w -> exists w', elapse ms w = Returns tt w' /\ owned w'.
Proof.
  intros [Hnil | (t & Ht & Hh)].
  - destruct (elapse_idle ms w Hnil) as (w' & Hrun & Ht' & _).
    exists w'. split; [exact Hrun|]. left. exact Ht'.
  - assert (Hp : pending (args t) (due t - clock w) w).
    { exists (handle t). split; [|exact Hh]. rewrite Ht. destruct t as [h d a]. cbn.
      do 2 f_equal. lia. }
    destruct (decide (Z.max 0 ms < due t - clock w)) as [Hshort|Hlong].
    + destruct (elapse_short _ ms _ w Hp Hshort) as (w' & Hrun & Hp' & _).
      exists w'. split; [exact Hrun|]. eapply pending_owned, Hp'.
    + unfold elapse.
      mstep (eq_refl : gets clock w = Returns (clock w) w).
      mstep (eq_refl : gets (fun w => length (timers w)) w
                       = Returns (length (timers w)) w).
      replace (length (timers w)) with 1%nat by (rewrite Ht; reflexivity).
      mstep (run_timers_fire t 0 (clock w + Z.max 0 ms) w Ht Hh ltac:(lia)).
      eexists. split; [reflexivity|]. left. reflexivity.
Qed.

(** C1. For every sequence of requests to the autosave coalescer in which
    consecutive requests are less than 5000 ms apart: nothing is written
    during the sequence nor in any quiet period shorter than 5000 ms after
    the last request; once the quiet period reaches 5000 ms exactly one write
    has occurred, of the argument of the last request (stamped at the
    flush); and no further write follows, so the arguments of the earlier
    requests are never written. *)
Theorem autosave_coalesces (first : ConfigurationProfile)
    (rest : list (Z * ConfigurationProfile)) (w : World) :
  owned w ->
  Forall (fun gp => gp.1 < 5000) rest ->
  exists w1,
    burst first rest w = Returns tt w1 /\
    journal w1 = journal w /\ localStorage w1 = localStorage w /\
    (forall waits, total waits < 5000 ->
       exists w2,
         idle waits w1 = Returns tt w2 /\
         journal w2 = journal w /\ localStorage w2 = localStorage w) /\
    (forall waits, 5000 <= total waits ->
       exists w2,
         let flushed := with_updatedAt (last_request first rest)
                          (toISOString (clock w1 + 5000 + elapsed w1)) in
         idle waits w1 = Returns tt w2 /\
         journal w2 = (journal w ++ [SetConfig (Encoded flushed)])%list /\
         CONFIG_STORAGE_KEY (localStorage w2) = Some (Encoded flushed) /\
         PROFILES_STORAGE_KEY (localStorage w2) = PROFILES_STORAGE_KEY (localStorage w) /\
         (forall more, exists w3,
             idle more w2 = Returns tt w3 /\ journal w3 = journal w2)).
Proof.
  intros Hown Hgaps.
  destruct (burst_run first rest w Hown Hgaps) as (w1 & Hrun & Hp & Hj & Hs).
  exists w1. split; [exact Hrun|]. split; [exact Hj|]. split; [exact Hs|]. split.
  - intros waits Hshort.
    destruct (idle_short _ waits 5000 w1 Hp Hshort) as (w2 & Hrun2 & _ & Hj2 & Hs2).
    exists w2. split; [exact Hrun2|]. split; congruence.
  - intros waits Hlong.
    destruct (idle_flush _ waits 5000 w1 Hp ltac:(lia))
      as (w2 & Hrun2 & Ht2 & Hj2 & Hcfg2 & Hpr2).
    exists w2. cbv zeta. split; [exact Hrun2|].
    split; [rewrite Hj2, Hj; reflexivity|]. split; [exact Hcfg2|].
    split; [rewrite Hpr2, Hs; reflexivity|].
    intros more. destruct (idle_idle more w2 Ht2) as (w3 & Hrun3 & _ & Hj3 & _).
    exists w3. split; assumption.
Qed.

Lemma autosave_coalesces_witness :
  exists w1,
    let w := sample_world None None [] [] in
    let rest := [(1000, light_profile); (2000, dark_profile)] in
    burst light_profile rest w = Returns tt w1 /\
    journal w1 = journal w /\ localStorage w1 = localStorage w /\
    (forall waits, total waits < 5000 ->
       exists w2,
         idle waits w1 = Returns tt w2 /\
         journal w2 = journal w /\ localStorage w2 = localStorage w) /\
    (forall waits, 5000 <= total waits ->
       exists w2,
         let flushed := with_updatedAt (last_request light_profile rest)
                          (toISOString (clock w1 + 5000 + elapsed w1)) in
         idle waits w1 = Returns tt w2 /\
         journal w2 = (journal w ++ [SetConfig (Encoded flushed)])%list /\
         CONFIG_STORAGE_KEY (localStorage w2) = Some (Encoded flushed) /\
         PROFILES_STORAGE_KEY (localStorage w2) = PROFILES_STORAGE_KEY (localStorage w) /\
         (forall more, exists w3,
             idle more w2 = Returns tt w3 /\ journal w3 = journal w2)).
Proof.
  apply (autosave_coalesces light_profile
           [(1000, light_profile); (2000, dark_profile)]
           (sample_world None None [] [])).
  - left. reflexivity.
  - repeat constructor; cbn; lia.
Defined.

(** The scenario of the test-suite: three requests at once, 3000 ms of quiet
    (nothing stored), 2000 ms more (the last request is stored). *)
Example autosave_scenario :
  exists w1 w2,
    (burst dark_profile [(0, light_profile); (0, dark_profile)] ;;; elapse 3000)
      (sample_world None None [] []) = Returns tt w1 /\
    stored_current (localStorage w1) = None /\ journal w1 = [] /\
    elapse 2000 w1 = Returns tt w2 /\
    stored_current (localStorage w2)
      = Some (with_updatedAt dark_profile "2023-01-01T00:00:05.000Z") /\
    length (journal w2) = 1%nat.
Proof.
  do 2 eexists.
  split; [vm_compute; reflexivity|].
  split; [reflexivity|]. split; [reflexivity|].
  split; [vm_compute; reflexivity|].
  split; reflexivity.
Qed.

(* ===================================================================== *)
(** ** The statements at work on sample worlds *)
(* ===================================================================== *)

Lemma deleteProfile_spec_witness :
  let w := sample_world (Some (Encoded dark_profile))
                        (Some (Encoded [dark_profile; light_profile])) [] [] in
  deleteProfile "p9" w = Returns false w /\
  exists w',
    deleteProfile "p1" w = Returns true w' /\
    PROFILES_STORAGE_KEY (localStorage w') = Some (Encoded [light_profile]) /\
    CONFIG_STORAGE_KEY (localStorage w')
      = Some (Encoded (with_updatedAt light_profile "2023-01-01T00:00:00.000Z")).
Proof.
  intros w. split.
  - apply (proj1 (deleteProfile_spec "p9" w)).
    apply (bool_decide_unpack _). vm_compute. exact I.
  - destruct (proj2 (deleteProfile_spec "p1" w)) as (w' & Hrun & Hlist & _ & Hslot).
    { cbn. left. }
    exists w'. split; [exact Hrun|]. split; [exact Hlist|].
    destruct Hslot as (now & w1 & Hnow & Hcfg & _).
    injection Hnow as <- _. exact Hcfg.
Defined.

Lemma switchProfile_spec_witness :
  let w := sample_world (Some (Encoded dark_profile))
                        (Some (Encoded [dark_profile; light_profile])) [] [] in
  let app := {| state := {| currentProfile := Some dark_profile;
                            profiles := [dark_profile; light_profile];
                            loading := false; error := None |};
                world := w |} in
  (exists app',
     switchProfile "p9" app = Throws (Error "Profile with id p9 not found") app' /\
     world app' = w) /\
  (exists app',
     switchProfile "p2" app = Returns tt app' /\
     currentProfile (state app') = Some light_profile /\
     journal (world app')
       = [SetConfig (Encoded (with_updatedAt dark_profile "2023-01-01T00:00:00.000Z"));
          SetConfig (Encoded (with_updatedAt light_profile "2023-01-01T00:00:00.000Z"))]).
Proof.
  intros w app. split.
  - destruct (proj1 (switchProfile_spec "p9" app)) as (app' & Hrun & Hw & _).
    { apply (bool_decide_unpack _). vm_compute. exact I. }
    exists app'. split; [exact Hrun | exact Hw].
  - destruct (proj2 (switchProfile_spec "p2" app))
      as (n & target & app' & t1 & w1 & t2 & w2 & Hn & Hid & _ & Hrun & Ht1 & Ht2 & Hcur & _ & _ & Hj & _).
    { cbn. right. left. }
    exists app'. split; [exact Hrun|].
    destruct n as [|[|n]]; cbn in Hn; try discriminate Hn;
      injection Hn as <-; try discriminate Hid.
    split; [exact Hcur|].
    injection Ht1 as <- <-. injection Ht2 as <- _. exact Hj.
Defined.

Lemma updateProfile_shallow_merge_witness :
  let w := sample_world (Some (Encoded light_profile))
                        (Some (Encoded [dark_profile; light_profile])) [] [] in
  updateProfile "p9" theme_light w = Returns None w /\
  exists r w',
    updateProfile "p1" theme_light w = Returns (Some r) w' /\
    settings r !! "theme" = Some (JStr "light") /\
    settings r !! "language" = Some (JStr "en") /\
    stored_profiles (localStorage w') = [r; light_profile].
Proof.
  intros w. split.
  - apply (proj1 (updateProfile_shallow_merge "p9" "theme" (JStr "light") theme_light w)).
    apply (bool_decide_unpack _). vm_compute. exact I.
  - destruct (proj2 (updateProfile_shallow_merge "p1" "theme" (JStr "light") theme_light w))
      as (n & old & r & w' & Hn & Hid & _ & Hrun & Hk & Hother & _ & _ & _ & _ & Hlist).
    { cbn. left. }
    exists r, w'. split; [exact Hrun|]. split; [exact Hk|].
    destruct n as [|[|n]]; cbn in Hn; try discriminate Hn;
      injection Hn as <-; try discriminate Hid.
    split; [|exact Hlist].
    rewrite Hother by discriminate. reflexivity.
Defined.

Lemma createProfile_spec_witness :
  let w := sample_world (Some (Encoded dark_profile))
                        (Some (Encoded [dark_profile])) [] ["0.i"] in
  let req := {| NewProfileRequest.name := "Work";
                NewProfileRequest.copyFromCurrent := Some true |} in
  exists p w',
    createProfile req w = Returns p w' /\
    id p = "profile_1672531200000_i" /\
    settings p = settings dark_profile /\
    stored_profiles (localStorage w') = [dark_profile; p] /\
    (exists r' w'',
        updateProfile (id p) theme_light w' = Returns (Some r') w'' /\
        stored_current (localStorage w'') = Some dark_profile) /\
    (exists res w'',
        updateProfile "p1" theme_light w' = Returns res w'' /\
        last (stored_profiles (localStorage w'')) = Some p).
Proof.
  intros w req.
  destruct (createProfile_spec req w)
    as (ms & w1 & r & w2 & now & w3 & p & w' & Hms & Hr & _ & Hrun & Hid & _ & _ & _ & _ & _
        & Hset & Hlist & Hnew & Hsrc).
  injection Hms as <- <-. injection Hr as <- _.
  assert (Hname : id p = "profile_1672531200000_i").
  { rewrite Hid. vm_compute. reflexivity. }
  clear Hid. rename Hname into Hid.
  exists p, w'. split; [exact Hrun|]. split; [exact Hid|].
  split; [exact Hset|]. split; [exact Hlist|]. split.
  - apply (Hnew dark_profile theme_light).
    + reflexivity.
    + rewrite Hid. discriminate.
    + discriminate.
    + rewrite Hid. apply (bool_decide_unpack _). vm_compute. exact I.
  - apply (Hsrc dark_profile theme_light).
    + reflexivity.
    + rewrite Hid. discriminate.
Defined.

(* ===================================================================== *)
(** ** Further properties of the profile store *)
(* ===================================================================== *)

(** X1. [saveProfiles(list)] followed by [loadProfiles()] returns [list]
    itself, entry for entry (no field is stamped, unlike a save of the
    current profile), whatever the list slot held before; a second save
    replaces the first as a whole; the current-pointer slot is not touched. *)
Theorem saveProfiles_round_trip (l1 l2 : list ConfigurationProfile) (w : World) :
  exists w1 w2,
    (saveProfiles l1 ;;; loadProfiles) w = Returns l1 w1 /\
    (saveProfiles l1 ;;; saveProfiles l2 ;;; loadProfiles) w = Returns l2 w2 /\
    CONFIG_STORAGE_KEY (localStorage w1) = CONFIG_STORAGE_KEY (localStorage w) /\
    CONFIG_STORAGE_KEY (localStorage w2) = CONFIG_STORAGE_KEY (localStorage w) /\
    journal w1 = (journal w ++ [SetProfiles (Encoded l1)])%list /\
    journal w2 = (journal w ++ [SetProfiles (Encoded l1); SetProfiles (Encoded l2)])%list.
Proof.
  exists (saved_profiles l1 w), (saved_profiles l2 (saved_profiles l1 w)).
  split.
  { mstep (saveProfiles_run l1 w). apply loadProfiles_run. }
  split.
  { mstep (saveProfiles_run l1 w). mstep (saveProfiles_run l2 (saved_profiles l1 w)).
    apply loadProfiles_run. }
  cbn. rewrite <- app_assoc. repeat split.
Qed.

Lemma getProfileSummaries_run (w : World) :
  getProfileSummaries w = Returns (summary <$> stored_profiles (localStorage w)) w.
Proof. unfold getProfileSummaries. mstep (loadProfiles_run w). reflexivity. Qed.

Lemma filter_absent (i : string) (l : list ConfigurationProfile) :
  i ∉ id <$> l -> filter (fun p => id p ≠ i) l = l.
Proof.
  induction l as [|p l IH]; [reflexivity|].
  rewrite fmap_cons, not_elem_of_cons. intros [Hp Hl].
  rewrite filter_cons, decide_True by congruence. rewrite (IH Hl). reflexivity.
Qed.

Lemma filter_summaries (i : string) (l : list ConfigurationProfile) :
  filter (fun s => ConfigurationProfileSummary.id s ≠ i) (summary <$> l)
  = summary <$> filter (fun p => id p ≠ i) l.
Proof.
  induction l as [|p l IH]; [reflexivity|].
  rewrite fmap_cons, !filter_cons. cbn [summary ConfigurationProfileSummary.id].
  destruct (decide (id p ≠ i)); rewrite IH; reflexivity.
Qed.

(** The world after the pointer repair of [deleteProfile], for the profile
    [c] found in the slot and the remaining list [l']. *)
Lemma deleteProfile_run (i : string) (w : World) (n : nat) :
  let l := stored_profiles (localStorage w) in
  let l' := filter (fun p => id p ≠ i) l in
  let w1 := saved_profiles l' w in
  findIndex i l = Some n ->
  deleteProfile i w
  = Returns true
      (match stored_current (localStorage w) with
       | Some c =>
           if bool_decide (id c = i)
           then match l' with
                | first :: _ => saved_current first w1
                | [] => set_storage
                          (fun s => {| CONFIG_STORAGE_KEY := None;
                                       PROFILES_STORAGE_KEY := PROFILES_STORAGE_KEY s |})
                          [RemoveConfig] w1
                end
           else w1
       | None => w1
       end).
Proof.
  intros l l' w1 Hn.
  unfold deleteProfile. mstep (loadProfiles_run w). fold l. rewrite Hn. fold l'.
  mstep (saveProfiles_run l' w). fold w1. mstep (loadCurrentProfile_run w1).
  replace (stored_current (localStorage w1)) with (stored_current (localStorage w))
    by reflexivity.
  destruct (stored_current (localStorage w)) as [c|]; [|reflexivity].
  destruct (bool_decide (id c = i)); [|reflexivity].
  destruct l'; reflexivity.
Qed.

Lemma deleteProfile_absent (i : string) (w : World) :
  i ∉ id <$> stored_profiles (localStorage w) ->
  deleteProfile i w = Returns false w.
Proof.
  intros Habs. apply findIndex_None in Habs.
  unfold deleteProfile. mstep (loadProfiles_run w). rewrite Habs. reflexivity.
Qed.

(** The stored list after [deleteProfile], whatever it returned. *)
Lemma deleteProfile_list (i : string) (w : World) :
  exists b w',
    deleteProfile i w = Returns b w' /\
    stored_profiles (localStorage w')
      = filter (fun p => id p ≠ i) (stored_profiles (localStorage w)) /\
    (b = true <-> i ∈ id <$> stored_profiles (localStorage w)).
Proof.
  destruct (decide (i ∈ id <$> stored_profiles (localStorage w))) as [Hin|Habs].
  - destruct (findIndex_is_Some _ _ Hin) as [n Hn].
    exists true. eexists. split; [apply (deleteProfile_run i w n Hn)|].
    split; [|tauto].
    destruct (stored_current (localStorage w)) as [c|]; [|reflexivity].
    destruct (bool_decide (id c = i)); [|reflexivity].
    destruct (filter _ _) eqn:E; cbn; rewrite ?E; reflexivity.
  - exists false, w. split; [exact (deleteProfile_absent i w Habs)|].
    split; [symmetry; apply filter_absent, Habs|].
    split; [discriminate | contradiction].
Qed.

(** X2. On a list slot that is absent, undecodable or holds a profile list,
    [getProfileSummaries()] returns, in list order, the id, the name and the
    updatedAt of every stored profile: after a [createProfile] these are the
    former summaries followed by that of the new profile, and after a
    [deleteProfile(i)] the former summaries without those of id [i]. *)
Theorem getProfileSummaries_tracks_list (req : NewProfileRequest.t) (i : string)
    (w : World) :
  exists old p w1 b w2,
    getProfileSummaries w = Returns old w /\
    old = (fun q => {| ConfigurationProfileSummary.id := id q;
                       ConfigurationProfileSummary.name := name q;
                       ConfigurationProfileSummary.updatedAt := updatedAt q |})
          <$> stored_profiles (localStorage w) /\
    createProfile req w = Returns p w1 /\
    getProfileSummaries w1
      = Returns (old ++ [{| ConfigurationProfileSummary.id := id p;
                            ConfigurationProfileSummary.name := NewProfileRequest.name req;
                            ConfigurationProfileSummary.updatedAt := updatedAt p |}])%list
                w1 /\
    deleteProfile i w = Returns b w2 /\
    getProfileSummaries w2
      = Returns (filter (fun s => ConfigurationProfileSummary.id s ≠ i) old) w2.
Proof.
  destruct (deleteProfile_list i w) as (b & w2 & Hdel & Hlist2 & _).
  pose proof (createProfile_run req w) as Hrun. cbv zeta in Hrun.
  match type of Hrun with _ = Returns ?q ?v => set (p := q) in *; set (w1 := v) in * end.
  exists (summary <$> stored_profiles (localStorage w)), p, w1, b, w2.
  split; [apply getProfileSummaries_run|].
  split; [reflexivity|].
  split; [exact Hrun|].
  split.
  { rewrite getProfileSummaries_run.
    replace (stored_profiles (localStorage w1))
      with (stored_profiles (localStorage w) ++ [p])%list.
    - rewrite fmap_app. reflexivity.
    - unfold w1. destruct (bool_decide _); reflexivity. }
  split; [exact Hdel|].
  rewrite getProfileSummaries_run, Hlist2, filter_summaries. reflexivity.
Qed.

(** X3. The first profile ever created becomes the current one: when the
    stored list is empty (or absent, or undecodable), [createProfile] writes
    the list [[p]] and then the current-pointer slot with [p], stamped by
    that second write, so that the pointer designates an entry of the list;
    when the list is not empty the slot is left as it was and the list is
    the only item written. *)
Theorem createProfile_first_is_current (req : NewProfileRequest.t) (w : World) :
  (stored_profiles (localStorage w) = [] ->
   exists p w' q,
     createProfile req w = Returns p w' /\
     stored_profiles (localStorage w') = [p] /\
     stored_current (localStorage w') = Some q /\
     id q = id p /\ name q = name p /\ settings q = settings p /\
     createdAt q = createdAt p /\ version q = version p /\
     updatedAt q = toISOString (clock w' ) /\
     journal w' = (journal w ++ [SetProfiles (Encoded [p]); SetConfig (Encoded q)])%list /\
     pointer_in_list (localStorage w')) /\
  (stored_profiles (localStorage w) ≠ [] ->
   exists p w',
     createProfile req w = Returns p w' /\
     CONFIG_STORAGE_KEY (localStorage w') = CONFIG_STORAGE_KEY (localStorage w) /\
     journal w'
       = (journal w ++ [SetProfiles (Encoded (stored_profiles (localStorage w) ++ [p]))])%list).
Proof.
  pose proof (createProfile_run req w) as Hrun. cbv zeta in Hrun.
  match type of Hrun with _ = Returns ?q _ => set (p := q) in * end.
  split.
  - intros Hnil. rewrite Hnil in Hrun. cbn [length app] in Hrun.
    rewrite bool_decide_eq_true_2 in Hrun by reflexivity.
    exists p. do 2 eexists. split; [exact Hrun|].
    split; [reflexivity|]. split; [reflexivity|].
    do 5 (split; [reflexivity|]).
    split; [reflexivity|].
    split; [cbn; rewrite <- app_assoc; reflexivity|].
    unfold pointer_in_list. cbn. left.
  - intros Hne. rewrite bool_decide_eq_false_2 in Hrun.
    + exists p. eexists. split; [exact Hrun|]. split; reflexivity.
    + intros Hlen. apply Hne, nil_length_inv, Hlen.
Qed.

Lemma createProfile_first_is_current_witness :
  (exists p w' q,
     let w := sample_world None None [0; 0; 7] ["0.i"] in
     let req := {| NewProfileRequest.name := "Work";
                   NewProfileRequest.copyFromCurrent := None |} in
     createProfile req w = Returns p w' /\
     stored_profiles (localStorage w') = [p] /\
     stored_current (localStorage w') = Some q /\
     id q = id p /\ updatedAt p = "2023-01-01T00:00:00.000Z" /\
     updatedAt q = "2023-01-01T00:00:00.007Z") /\
  (exists p w',
     let w := sample_world (Some (Encoded dark_profile)) (Some (Encoded [dark_profile]))
                           [] ["0.i"] in
     let req := {| NewProfileRequest.name := "Work";
                   NewProfileRequest.copyFromCurrent := None |} in
     createProfile req w = Returns p w' /\
     CONFIG_STORAGE_KEY (localStorage w') = Some (Encoded dark_profile)).
Proof.
  split.
  - destruct (proj1 (createProfile_first_is_current
                       {| NewProfileRequest.name := "Work";
                          NewProfileRequest.copyFromCurrent := None |}
                       (sample_world None None [0; 0; 7] ["0.i"])) eq_refl)
      as (p & w' & q & Hrun & Hlist & Hcur & Hid & _ & _ & _ & _ & Hstamp & _).
    exists p, w', q. cbv zeta. split; [exact Hrun|]. split; [exact Hlist|].
    split; [exact Hcur|]. split; [exact Hid|].
    pose proof Hrun as Hrun'. vm_compute in Hrun'. injection Hrun' as <- <-.
    split; [reflexivity|]. rewrite Hstamp. vm_compute. reflexivity.
  - destruct (proj2 (createProfile_first_is_current
                       {| NewProfileRequest.name := "Work";
                          NewProfileRequest.copyFromCurrent := None |}
                       (sample_world (Some (Encoded dark_profile))
                                     (Some (Encoded [dark_profile])) [] ["0.i"])))
      as (p & w' & Hrun & Hcfg & _).
    { discriminate. }
    exists p, w'. cbv zeta. split; [exact Hrun | exact Hcfg].
Defined.

(** X4. [deleteProfile] is idempotent: whatever it returned, no entry of the
    stored list has the id afterwards, the list has not grown, it returned
    true exactly when the id was in the list, and a second call with the
    same id returns false and changes nothing. *)
Theorem deleteProfile_idempotent (i : string) (w : World) :
  exists b w',
    deleteProfile i w = Returns b w' /\
    (b = true <-> i ∈ id <$> stored_profiles (localStorage w)) /\
    (i ∉ id <$> stored_profiles (localStorage w')) /\
    (length (stored_profiles (localStorage w'))
     <= length (stored_profiles (localStorage w)))%nat /\
    deleteProfile i w' = Returns false w'.
Proof.
  destruct (deleteProfile_list i w) as (b & w' & Hrun & Hlist & Hb).
  assert (Hgone : i ∉ id <$> stored_profiles (localStorage w')).
  { rewrite Hlist. intros Hin. apply list_elem_of_fmap in Hin as (p & Hid & Hp).
    apply list_elem_of_filter in Hp as [Hne _]. congruence. }
  exists b, w'. split; [exact Hrun|]. split; [exact Hb|]. split; [exact Hgone|].
  split; [rewrite Hlist; apply length_filter|].
  apply deleteProfile_absent, Hgone.
Qed.

(** The stored list and the pointer slot after [updateProfile], whatever it
    returned. *)
Lemma updateProfile_effect (i : string) (updates : ConfigurationUpdate.t) (w : World) :
  ((i ∉ id <$> stored_profiles (localStorage w)) /\
   updateProfile i updates w = Returns None w) \/
  (exists n old r w',
     findIndex i (stored_profiles (localStorage w)) = Some n /\
     stored_profiles (localStorage w) !! n = Some old /\ id old = i /\
     r = apply_updates old updates (toISOString (clock w + elapsed w)) /\
     updateProfile i updates w = Returns (Some r) w' /\
     stored_profiles (localStorage w') = <[n := r]> (stored_profiles (localStorage w)) /\
     (forall c, stored_current (localStorage w) = Some c -> id c ≠ i ->
                CONFIG_STORAGE_KEY (localStorage w') = CONFIG_STORAGE_KEY (localStorage w)) /\
     (stored_current (localStorage w) = None ->
      CONFIG_STORAGE_KEY (localStorage w') = CONFIG_STORAGE_KEY (localStorage w)) /\
     (forall c, stored_current (localStorage w) = Some c -> id c = i ->
                exists t, stored_current (localStorage w') = Some (with_updatedAt r t))).
Proof.
  destruct (findIndex i (stored_profiles (localStorage w))) as [n|] eqn:Hn.
  - right. destruct (findIndex_Some _ _ _ Hn) as (old & Hold & Hid & _).
    pose proof (updateProfile_run i updates w n old Hn Hold) as Hrun. cbv zeta in Hrun.
    exists n, old. do 2 eexists.
    split; [reflexivity|]. split; [exact Hold|]. split; [exact Hid|].
    split; [reflexivity|]. split; [exact Hrun|].
    destruct (stored_current (localStorage w)) as [c|].
    + case_bool_decide as Hc.
      * split; [reflexivity|]. split; [intros c' [= <-] N; contradiction|].
        split; [discriminate|]. intros c' _ _. eexists. reflexivity.
      * split; [reflexivity|]. split; [reflexivity|]. split; [discriminate|].
        intros c' [= <-] E. contradiction.
    + split; [reflexivity|]. split; [reflexivity|]. split; [reflexivity|]. discriminate.
  - left. apply findIndex_None in Hn. split; [exact Hn|].
    apply updateProfile_absent, Hn.
Qed.



(** X6. The three mutating operations of the manager keep the pointer
    consistent: if the profile in the current-pointer slot, when there is
    one, is an entry of the stored list, then this still holds after
    [createProfile], after [updateProfile] and after [deleteProfile]. *)
Theorem manager_keeps_pointer_in_list (req : NewProfileRequest.t) (i : string)
    (updates : ConfigurationUpdate.t) (w : World) :
  pointer_in_list (localStorage w) ->
  (exists p w', createProfile req w = Returns p w' /\ pointer_in_list (localStorage w')) /\
  (exists r w', updateProfile i updates w = Returns r w' /\ pointer_in_list (localStorage w')) /\
  (exists b w', deleteProfile i w = Returns b w' /\ pointer_in_list (localStorage w')).
Proof.
  intros Hinv. unfold pointer_in_list in Hinv. split; [|split].
  - pose proof (createProfile_run req w) as Hrun. cbv zeta in Hrun.
    match type of Hrun with _ = Returns ?q _ => set (p := q) in * end.
    exists p. eexists. split; [exact Hrun|].
    case_bool_decide as Hlen.
    + unfold pointer_in_list. cbn. rewrite fmap_app. cbn.
      apply elem_of_app. right. left.
    + unfold pointer_in_list. cbn.
      change (match stored_current (localStorage w) with
              | Some c => id c ∈ id <$> (stored_profiles (localStorage w) ++ [p])%list
              | None => True
              end).
      destruct (stored_current (localStorage w)) as [c|]; [|exact I].
      rewrite fmap_app. apply elem_of_app. left. exact Hinv.
  - destruct (updateProfile_effect i updates w)
      as [[Habs Hrun] | (n & old & r & w' & Hn & Hold & Hid & Hr & Hrun & Hlist & Hother & Hnone & Hsame)].
    + exists None, w. split; [exact Hrun | exact Hinv].
    + exists (Some r), w'. split; [exact Hrun|].
      assert (Hids : id <$> stored_profiles (localStorage w')
                     = id <$> stored_profiles (localStorage w)).
      { rewrite Hlist, list_fmap_insert. apply list_insert_id.
        rewrite list_lookup_fmap, Hold, Hr. reflexivity. }
      unfold pointer_in_list. rewrite Hids.
      destruct (stored_current (localStorage w)) as [c|] eqn:Hc.
      * destruct (decide (id c = i)) as [E|E].
        -- destruct (Hsame c eq_refl E) as [t ->]. cbn.
           rewrite Hr. cbn. rewrite Hid, <- E. exact Hinv.
        -- unfold stored_current. rewrite (Hother c eq_refl E).
           fold (stored_current (localStorage w)). rewrite Hc. exact Hinv.
      * unfold stored_current. rewrite (Hnone eq_refl).
        fold (stored_current (localStorage w)). rewrite Hc. exact I.
  - destruct (findIndex i (stored_profiles (localStorage w))) as [n|] eqn:Hn.
    + exists true. eexists. split; [apply (deleteProfile_run i w n Hn)|].
      destruct (stored_current (localStorage w)) as [c|] eqn:Hc.
      * case_bool_decide as E.
        -- destruct (filter _ _) as [|first rest] eqn:Hf.
           ++ unfold pointer_in_list. cbn. exact I.
           ++ unfold pointer_in_list. cbn. left.
        -- set (l' := filter (fun p => id p ≠ i) (stored_profiles (localStorage w))).
           unfold pointer_in_list.
           replace (stored_current (localStorage (saved_profiles l' w)))
             with (stored_current (localStorage w)) by reflexivity.
           replace (stored_profiles (localStorage (saved_profiles l' w)))
             with l' by reflexivity.
           rewrite Hc.
           apply list_elem_of_fmap in Hinv as (p & Hp & Hin).
           apply list_elem_of_fmap. exists p. split; [exact Hp|].
           apply list_elem_of_filter. split; [congruence | exact Hin].
      * set (l' := filter (fun p => id p ≠ i) (stored_profiles (localStorage w))).
        unfold pointer_in_list.
        replace (stored_current (localStorage (saved_profiles l' w)))
          with (stored_current (localStorage w)) by reflexivity.
        rewrite Hc. exact I.
    + apply findIndex_None in Hn.
      exists false, w. split; [apply deleteProfile_absent, Hn | exact Hinv].
Qed.

Lemma manager_keeps_pointer_in_list_witness :
  let w := sample_world (Some (Encoded dark_profile))
                        (Some (Encoded [dark_profile; light_profile])) [] [] in
  exists b w', deleteProfile "p1" w = Returns b w' /\ pointer_in_list (localStorage w').
Proof.
  intros w.
  apply (manager_keeps_pointer_in_list
           {| NewProfileRequest.name := "Work"; NewProfileRequest.copyFromCurrent := None |}
           "p1" theme_light w).
  unfold pointer_in_list. cbn. left.
Defined.

(* ===================================================================== *)
(** ** Further properties of the provider *)
(* ===================================================================== *)

(** X7. [loadConfig()] never fails: it leaves the projector with the profile
    and the list the two slots decode to (null and the empty list when a
    slot is absent or undecodable), loading off and the error cleared, and
    does not touch the world. *)
Theorem loadConfig_mirrors_store (app : App) :
  exists app',
    ConfigurationProvider.loadConfig app = Returns tt app' /\
    world app' = world app /\
    currentProfile (state app') = stored_current (localStorage (world app)) /\
    profiles (state app') = stored_profiles (localStorage (world app)) /\
    loading (state app') = false /\ error (state app') = None /\
    mirrors app'.
Proof.
  unfold ConfigurationProvider.loadConfig, try_catch.
  mstep (eq_refl : dispatch LOAD_START app
                   = Returns tt {| state := {| currentProfile := currentProfile (state app);
                                               profiles := profiles (state app);
                                               loading := true; error := None |};
                                   world := world app |}).
  set (app1 := {| state := {| currentProfile := currentProfile (state app);
                              profiles := profiles (state app);
                              loading := true; error := None |};
                  world := world app |}).
  mstep (lift_Returns _ app1 _ _ (loadCurrentProfile_run (world app1))).
  mstep (lift_Returns _ app1 _ _ (loadProfiles_run (world app1))).
  eexists. split; [reflexivity|]. cbn. repeat split.
Qed.

(** The run of a [saveConfig] that fails. *)
Lemma saveConfig_throws (updates : ConfigurationUpdate.t) (app : App) :
  let cause :=
    match currentProfile (state app) with
    | None => "No current profile to save"
    | Some _ => "Failed to update profile"
    end in
  match currentProfile (state app) with
  | None => True
  | Some c => id c ∉ id <$> stored_profiles (localStorage (world app))
  end ->
  ConfigurationProvider.saveConfig updates app
  = Throws (Error cause)
      {| state := {| currentProfile := currentProfile (state app);
                     profiles := profiles (state app);
                     loading := false;
                     error := Some ("Failed to save configuration: " +:+ cause) |};
         world := world app |}.
Proof.
  intros cause H. unfold ConfigurationProvider.saveConfig.
  mstep (eq_refl : gets state app = Returns (state app) app).
  unfold try_catch.
  mstep (eq_refl : dispatch SAVE_START app
                   = Returns tt {| state := {| currentProfile := currentProfile (state app);
                                               profiles := profiles (state app);
                                               loading := true; error := error (state app) |};
                                   world := world app |}).
  unfold cause. destruct (currentProfile (state app)) as [c|] eqn:Hc.
  - mstep (lift_Returns _ {| state := {| currentProfile := Some c;
                                         profiles := profiles (state app);
                                         loading := true; error := error (state app) |};
                             world := world app |} _ _
             (updateProfile_absent (id c) updates (world app) H)).
    reflexivity.
  - reflexivity.
Qed.

(** X8. [saveConfig] fails without writing anything in two cases: with no
    current profile in memory it throws "No current profile to save"; with a
    current profile whose id is not in the stored list it throws "Failed to
    update profile".  In both cases the projector ends with loading off, the
    message prefixed by "Failed to save configuration: " as its error, and
    its current profile and list as they were. *)
Theorem saveConfig_failures (updates : ConfigurationUpdate.t) (app : App) :
  let cause :=
    match currentProfile (state app) with
    | None => "No current profile to save"
    | Some _ => "Failed to update profile"
    end in
  match currentProfile (state app) with
  | None => True
  | Some c => id c ∉ id <$> stored_profiles (localStorage (world app))
  end ->
  exists app',
    ConfigurationProvider.saveConfig updates app = Throws (Error cause) app' /\
    world app' = world app /\
    currentProfile (state app') = currentProfile (state app) /\
    profiles (state app') = profiles (state app) /\
    loading (state app') = false /\
    error (state app') = Some ("Failed to save configuration: " +:+ cause).
Proof.
  intros cause H. eexists.
  split; [apply (saveConfig_throws updates app H)|]. repeat split.
Qed.

Lemma saveConfig_failures_witness :
  (exists app',
     ConfigurationProvider.saveConfig theme_light
       {| state := initialState; world := sample_world None None [] [] |}
     = Throws (Error "No current profile to save") app' /\
     error (state app')
     = Some "Failed to save configuration: No current profile to save") /\
  (exists app',
     ConfigurationProvider.saveConfig theme_light
       {| state := {| currentProfile := Some dark_profile; profiles := [dark_profile];
                      loading := false; error := None |};
          world := sample_world (Some (Encoded dark_profile))
                                (Some (Encoded [light_profile])) [] [] |}
     = Throws (Error "Failed to update profile") app' /\
     error (state app') = Some "Failed to save configuration: Failed to update profile").
Proof.
  split.
  - destruct (saveConfig_failures theme_light
                {| state := initialState; world := sample_world None None [] [] |} I)
      as (app' & Hrun & _ & _ & _ & _ & Herr).
    exists app'. split; [exact Hrun | exact Herr].
  - destruct (saveConfig_failures theme_light
                {| state := {| currentProfile := Some dark_profile; profiles := [dark_profile];
                               loading := false; error := None |};
                   world := sample_world (Some (Encoded dark_profile))
                                         (Some (Encoded [light_profile])) [] [] |})
      as (app' & Hrun & _ & _ & _ & _ & Herr).
    { apply (bool_decide_unpack _). vm_compute. exact I. }
    exists app'. split; [exact Hrun | exact Herr].
Defined.

(** The run of a successful [saveConfig]. *)
Lemma saveConfig_run (updates : ConfigurationUpdate.t) (app : App)
    (c r : ConfigurationProfile) (w' : World) :
  currentProfile (state app) = Some c ->
  updateProfile (id c) updates (world app) = Returns (Some r) w' ->
  ConfigurationProvider.saveConfig updates app
  = Returns tt
      {| state := {| currentProfile := Some r;
                     profiles := (fun p => if bool_decide (id p = id r) then r else p)
                                 <$> profiles (state app);
                     loading := false; error := error (state app) |};
         world := w' |}.
Proof.
  intros Hc Hup. unfold ConfigurationProvider.saveConfig.
  mstep (eq_refl : gets state app = Returns (state app) app).
  unfold try_catch.
  set (app1 := {| state := {| currentProfile := currentProfile (state app);
                              profiles := profiles (state app);
                              loading := true; error := error (state app) |};
                  world := world app |}).
  mstep (eq_refl : dispatch SAVE_START app = Returns tt app1).
  rewrite Hc.
  mstep (lift_Returns _ app1 _ _ Hup). reflexivity.
Qed.

(** X9. A successful [saveConfig]: when the in-memory current profile has an
    id of the stored list, the merged profile (stamped once) becomes the
    in-memory current profile and is, field for field, the entry stored in
    the list at the first position of that id; loading is off and the error
    is kept. *)
Theorem saveConfig_success (updates : ConfigurationUpdate.t) (app : App)
    (c : ConfigurationProfile) :
  currentProfile (state app) = Some c ->
  id c ∈ id <$> stored_profiles (localStorage (world app)) ->
  exists n old r now w1 app',
    findIndex (id c) (stored_profiles (localStorage (world app))) = Some n /\
    stored_profiles (localStorage (world app)) !! n = Some old /\
    new_Date_toISOString (world app) = Returns now w1 /\
    r = apply_updates old updates now /\
    ConfigurationProvider.saveConfig updates app = Returns tt app' /\
    currentProfile (state app') = Some r /\
    stored_profiles (localStorage (world app')) !! n = Some r /\
    loading (state app') = false /\ error (state app') = error (state app).
Proof.
  intros Hc Hin.
  destruct (updateProfile_effect (id c) updates (world app))
    as [[Habs _] | (n & old & r & w' & Hn & Hold & Hid & Hr & Hrun & Hlist & _)];
    [contradiction|].
  exists n, old, r. do 3 eexists.
  split; [exact Hn|]. split; [exact Hold|].
  split; [apply new_Date_toISOString_run|]. split; [exact Hr|].
  split; [apply (saveConfig_run updates app c r w' Hc Hrun)|].
  split; [reflexivity|].
  split; [|split; reflexivity].
  cbn [world]. rewrite Hlist. apply list_lookup_insert_eq.
  eapply lookup_lt_Some, Hold.
Qed.

Lemma saveConfig_success_witness :
  exists app',
    ConfigurationProvider.saveConfig theme_light
      {| state := {| currentProfile := Some dark_profile;
                     profiles := [dark_profile; light_profile];
                     loading := false; error := None |};
         world := sample_world (Some (Encoded dark_profile))
                               (Some (Encoded [dark_profile; light_profile])) [] [] |}
    = Returns tt app' /\
    currentProfile (state app') = stored_profiles (localStorage (world app')) !! 0%nat.
Proof.
  destruct (saveConfig_success theme_light
              {| state := {| currentProfile := Some dark_profile;
                             profiles := [dark_profile; light_profile];
                             loading := false; error := None |};
                 world := sample_world (Some (Encoded dark_profile))
                                       (Some (Encoded [dark_profile; light_profile])) [] [] |}
              dark_profile eq_refl)
    as (n & old & r & now & w1 & app' & Hn & _ & _ & _ & Hrun & Hcur & Hentry & _).
  { cbn. left. }
  exists app'. split; [exact Hrun|].
  injection Hn as <-. rewrite Hcur, Hentry. reflexivity.
Defined.

Lemma replace_first_is_replace_all (l : list ConfigurationProfile) (n : nat)
    (old r : ConfigurationProfile) :
  NoDup (id <$> l) -> l !! n = Some old -> id r = id old ->
  <[n := r]> l = (fun p => if bool_decide (id p = id r) then r else p) <$> l.
Proof.
  revert n. induction l as [|p l IH]; intros n Hnd Hold Hid; [discriminate|].
  rewrite fmap_cons in Hnd. apply NoDup_cons in Hnd as [Hp Hnd].
  destruct n as [|n]; cbn in Hold |- *.
  - injection Hold as ->. rewrite bool_decide_eq_true_2 by congruence. f_equal.
    clear IH Hnd. induction l as [|q l IHl]; [reflexivity|].
    rewrite fmap_cons, not_elem_of_cons in Hp. destruct Hp as [Hq Hl].
    cbn. rewrite bool_decide_eq_false_2 by congruence. f_equal. apply IHl, Hl.
  - rewrite bool_decide_eq_false_2.
    + f_equal. apply (IH n Hnd Hold Hid).
    + intros E. apply Hp. apply list_elem_of_fmap. exists old.
      split; [congruence|]. eapply list_elem_of_lookup_2, Hold.
Qed.

(** The run of a [saveConfig] closure that fails. *)
Lemma saveConfigFrom_throws (rendered : ConfigurationState)
    (updates : ConfigurationUpdate.t) (app : App) :
  let cause :=
    match currentProfile rendered with
    | None => "No current profile to save"
    | Some _ => "Failed to update profile"
    end in
  match currentProfile rendered with
  | None => True
  | Some c => id c ∉ id <$> stored_profiles (localStorage (world app))
  end ->
  ConfigurationProvider.saveConfigFrom rendered updates app
  = Throws (Error cause)
      {| state := {| currentProfile := currentProfile (state app);
                     profiles := profiles (state app);
                     loading := false;
                     error := Some ("Failed to save configuration: " +:+ cause) |};
         world := world app |}.
Proof.
  intros cause H. unfold ConfigurationProvider.saveConfigFrom, try_catch.
  set (app1 := {| state := {| currentProfile := currentProfile (state app);
                              profiles := profiles (state app);
                              loading := true; error := error (state app) |};
                  world := world app |}).
  mstep (eq_refl : dispatch SAVE_START app = Returns tt app1).
  unfold cause. destruct (currentProfile rendered) as [c|].
  - mstep (lift_Returns _ app1 _ _ (updateProfile_absent (id c) updates (world app) H)).
    reflexivity.
  - reflexivity.
Qed.

(** The run of a successful [saveConfig] closure. *)
Lemma saveConfigFrom_run (rendered : ConfigurationState) (updates : ConfigurationUpdate.t)
    (app : App) (c r : ConfigurationProfile) (w' : World) :
  currentProfile rendered = Some c ->
  updateProfile (id c) updates (world app) = Returns (Some r) w' ->
  ConfigurationProvider.saveConfigFrom rendered updates app
  = Returns tt
      {| state := {| currentProfile := Some r;
                     profiles := (fun p => if bool_decide (id p = id r) then r else p)
                                 <$> profiles (state app);
                     loading := false; error := error (state app) |};
         world := w' |}.
Proof.
  intros Hc Hup. unfold ConfigurationProvider.saveConfigFrom, try_catch.
  set (app1 := {| state := {| currentProfile := currentProfile (state app);
                              profiles := profiles (state app);
                              loading := true; error := error (state app) |};
                  world := world app |}).
  mstep (eq_refl : dispatch SAVE_START app = Returns tt app1).
  rewrite Hc.
  mstep (lift_Returns _ app1 _ _ Hup). reflexivity.
Qed.

(** The closures of the current render are the closures above at the
    projector's own state. *)
Lemma closures_of_current_render (i : string) (updates : ConfigurationUpdate.t)
    (app : App) :
  switchProfile i app = switchProfileFrom (state app) i app /\
  ConfigurationProvider.saveConfig updates app
  = ConfigurationProvider.saveConfigFrom (state app) updates app.
Proof.
  split; [|reflexivity].
  unfold switchProfile, switchProfileFrom, try_catch.
  mstep (lift_Returns _ app _ _ (loadProfiles_run (world app))).
  mstep (lift_Returns _ app _ _ (loadProfiles_run (world app))).
  destruct (find i (stored_profiles (localStorage (world app)))); reflexivity.
Qed.

(** The run of a [switchProfile] closure on an id the stored list holds. *)
Lemma switchProfileFrom_run (rendered : ConfigurationState) (i : string) (app : App)
    (target : ConfigurationProfile) :
  find i (stored_profiles (localStorage (world app))) = Some target ->
  exists w' t,
    switchProfileFrom rendered i app
    = Returns tt {| state := {| currentProfile := Some target;
                                profiles := profiles (state app);
                                loading := loading (state app);
                                error := error (state app) |};
                    world := w' |} /\
    stored_current (localStorage w') = Some (with_updatedAt target t) /\
    PROFILES_STORAGE_KEY (localStorage w') = PROFILES_STORAGE_KEY (localStorage (world app)).
Proof.
  intros Hfind. unfold switchProfileFrom, try_catch.
  mstep (lift_Returns _ app _ _ (loadProfiles_run (world app))).
  rewrite Hfind.
  destruct (currentProfile rendered) as [c|]; cbn;
    do 2 eexists; (split; [reflexivity|]); split; reflexivity.
Qed.

(** The run of a [switchProfile] closure on an id the stored list lacks. *)
Lemma switchProfileFrom_throws (rendered : ConfigurationState) (i : string) (app : App) :
  i ∉ id <$> stored_profiles (localStorage (world app)) ->
  switchProfileFrom rendered i app
  = Throws (Error ("Profile with id " +:+ i +:+ " not found"))
      {| state := {| currentProfile := currentProfile (state app);
                     profiles := profiles (state app);
                     loading := false;
                     error := Some ("Failed to switch profile: "
                                    +:+ "Profile with id " +:+ i +:+ " not found") |};
         world := world app |}.
Proof.
  intros Habs. apply find_None in Habs. unfold switchProfileFrom, try_catch.
  mstep (lift_Returns _ app _ _ (loadProfiles_run (world app))).
  rewrite Habs. reflexivity.
Qed.

(** X10. On a storage that accepts every write, the provider keeps its list
    a mirror of the stored list.  If the projector's list is the stored list
    before the call, then: [createProfile] returns and it is so afterwards;
    [deleteProfile(i)] and [switchProfile(i)] return when the stored list
    holds id [i], and throw with nothing written when it does not, and in
    both cases it is so afterwards; [saveConfig], when the stored ids are
    pairwise distinct, returns when the current profile its render captured
    has an id of the stored list and it is so afterwards, and when that
    render had no current profile, or one of an id the stored list lacks, it
    throws with nothing written and it is so afterwards.  [switchProfile]
    and [saveConfig] may be the closures of any render. *)
Theorem provider_keeps_mirror (req : NewProfileRequest.t) (i : string)
    (updates : ConfigurationUpdate.t) (rendered : ConfigurationState) (app : App) :
  mirrors app ->
  let ids := id <$> stored_profiles (localStorage (world app)) in
  (exists app',
     ConfigurationProvider.createProfile req app = Returns tt app' /\ mirrors app') /\
  (i ∈ ids ->
   (exists app',
      ConfigurationProvider.deleteProfile i app = Returns tt app' /\ mirrors app') /\
   (exists app',
      switchProfileFrom rendered i app = Returns tt app' /\ mirrors app')) /\
  (i ∉ ids ->
   (exists e app',
      ConfigurationProvider.deleteProfile i app = Throws e app' /\
      world app' = world app /\ mirrors app') /\
   (exists e app',
      switchProfileFrom rendered i app = Throws e app' /\
      world app' = world app /\ mirrors app')) /\
  (forall c, currentProfile rendered = Some c -> id c ∈ ids -> NoDup ids ->
     exists app',
       ConfigurationProvider.saveConfigFrom rendered updates app = Returns tt app' /\
       mirrors app') /\
  (match currentProfile rendered with
   | None => True
   | Some c => id c ∉ ids
   end ->
   exists e app',
     ConfigurationProvider.saveConfigFrom rendered updates app = Throws e app' /\
     world app' = world app /\ mirrors app').
Proof.
  intros Hm. cbv zeta. unfold mirrors in *. split; [|split; [|split; [|split]]].
  - unfold ConfigurationProvider.createProfile, try_catch.
    pose proof (createProfile_run req (world app)) as Hrun. cbv zeta in Hrun.
    mstep (lift_Returns _ app _ _ Hrun). eexists. split; [reflexivity|].
    cbn. rewrite Hm. destruct (bool_decide _); reflexivity.
  - intros Hin. split.
    + destruct (findIndex_is_Some _ _ Hin) as [n Hn].
      pose proof (deleteProfile_run i (world app) n Hn) as Hrun. cbv zeta in Hrun.
      destruct (deleteProfile_list i (world app)) as (b & w' & Hrun' & Hlist & _).
      rewrite Hrun in Hrun'. injection Hrun' as <- Hw.
      unfold ConfigurationProvider.deleteProfile, try_catch.
      mstep (lift_Returns _ app _ _ Hrun). eexists. split; [reflexivity|].
      cbn [state world profiles]. rewrite Hw, Hlist, Hm. reflexivity.
    + destruct (find i (stored_profiles (localStorage (world app)))) as [target|] eqn:Hfind.
      * destruct (switchProfileFrom_run rendered i app target Hfind)
          as (w' & t & Hrun & _ & Hlist).
        eexists. split; [exact Hrun|]. cbn [state world profiles].
        unfold stored_profiles. rewrite Hlist. exact Hm.
      * apply find_None in Hfind. contradiction.
  - intros Habs. split.
    + do 2 eexists. split.
      { unfold ConfigurationProvider.deleteProfile, try_catch.
        mstep (lift_Returns _ app _ _ (deleteProfile_absent i (world app) Habs)).
        reflexivity. }
      split; [reflexivity | exact Hm].
    + do 2 eexists. split; [apply (switchProfileFrom_throws rendered i app Habs)|].
      split; [reflexivity | exact Hm].
  - intros c Hc Hin Hnd.
    destruct (updateProfile_effect (id c) updates (world app))
      as [[Habs _] | (n & old & r & w' & Hn & Hold & Hid & Hr & Hrun & Hlist & _)].
    + contradiction.
    + eexists. split; [apply (saveConfigFrom_run rendered updates app c r w' Hc Hrun)|].
      cbn [state world profiles]. rewrite Hlist, Hm. symmetry.
      apply (replace_first_is_replace_all _ n old r Hnd Hold).
      rewrite Hr. reflexivity.
  - intros Hfail. do 2 eexists.
    split; [apply (saveConfigFrom_throws rendered updates app Hfail)|].
    split; [reflexivity | exact Hm].
Qed.

Lemma provider_keeps_mirror_witness :
  let app := {| state := {| currentProfile := Some dark_profile;
                            profiles := [dark_profile; light_profile];
                            loading := false; error := None |};
                world := sample_world (Some (Encoded dark_profile))
                                      (Some (Encoded [dark_profile; light_profile]))
                                      [] ["0.i"] |} in
  (exists app',
     ConfigurationProvider.deleteProfile "p1" app = Returns tt app' /\ mirrors app') /\
  (exists app',
     ConfigurationProvider.saveConfigFrom (state app) theme_light app = Returns tt app' /\
     mirrors app').
Proof.
  intros app.
  destruct (provider_keeps_mirror
              {| NewProfileRequest.name := "Work"; NewProfileRequest.copyFromCurrent := None |}
              "p1" theme_light (state app) app eq_refl) as (_ & Hin & _ & Hsave & _).
  split.
  - apply Hin. cbn. left.
  - apply (Hsave dark_profile eq_refl).
    + cbn. left.
    + apply (bool_decide_unpack _). vm_compute. exact I.
Defined.

(** X11. Deleting the current profile through the provider leaves its two
    layers apart when other profiles remain: the projector ends with no
    current profile, while the current-pointer slot holds the first
    remaining entry of the list; they agree (no profile) only when the list
    is left empty.  The projector's list loses the entries of that id. *)
Theorem provider_delete_current (i : string) (app : App) (c c' : ConfigurationProfile) :
  currentProfile (state app) = Some c -> id c = i ->
  stored_current (localStorage (world app)) = Some c' -> id c' = i ->
  i ∈ id <$> stored_profiles (localStorage (world app)) ->
  exists app' now w1,
    ConfigurationProvider.deleteProfile i app = Returns tt app' /\
    new_Date_toISOString (world app) = Returns now w1 /\
    currentProfile (state app') = None /\
    profiles (state app') = filter (fun p => id p ≠ i) (profiles (state app)) /\
    stored_current (localStorage (world app'))
      = match filter (fun p => id p ≠ i) (stored_profiles (localStorage (world app))) with
        | first :: _ => Some (with_updatedAt first now)
        | [] => None
        end.
Proof.
  intros Hc Hid Hc' Hid' Hin. destruct (findIndex_is_Some _ _ Hin) as [n Hn].
  pose proof (deleteProfile_run i (world app) n Hn) as Hrun. cbv zeta in Hrun.
  rewrite Hc', bool_decide_eq_true_2 in Hrun by exact Hid'.
  do 3 eexists. split.
  { unfold ConfigurationProvider.deleteProfile, try_catch.
    mstep (lift_Returns _ app _ _ Hrun). reflexivity. }
  split; [apply new_Date_toISOString_run|].
  cbn. rewrite Hc. cbn. rewrite bool_decide_eq_true_2 by (f_equal; exact Hid).
  split; [reflexivity|]. split; [reflexivity|].
  destruct (filter _ _); reflexivity.
Qed.

Lemma provider_delete_current_witness :
  exists app',
    ConfigurationProvider.deleteProfile "p1"
      {| state := {| currentProfile := Some dark_profile;
                     profiles := [dark_profile; light_profile];
                     loading := false; error := None |};
         world := sample_world (Some (Encoded dark_profile))
                               (Some (Encoded [dark_profile; light_profile])) [] [] |}
    = Returns tt app' /\
    currentProfile (state app') = None /\
    stored_current (localStorage (world app'))
    = Some (with_updatedAt light_profile "2023-01-01T00:00:00.000Z").
Proof.
  destruct (provider_delete_current "p1"
              {| state := {| currentProfile := Some dark_profile;
                             profiles := [dark_profile; light_profile];
                             loading := false; error := None |};
                 world := sample_world (Some (Encoded dark_profile))
                                       (Some (Encoded [dark_profile; light_profile])) [] [] |}
              dark_profile dark_profile eq_refl eq_refl eq_refl eq_refl)
    as (app' & now & w1 & Hrun & Hnow & Hcur & _ & Hslot).
  { cbn. left. }
  exists app'. split; [exact Hrun|]. split; [exact Hcur|].
  injection Hnow as <- _. exact Hslot.
Defined.

(** X12. Deleting through the provider an id that the stored list does not
    hold throws "Failed to delete profile with id <i>", writes nothing, and
    leaves the projector's current profile and list as they were -- even
    when the projector's own list holds that id -- with the message
    prefixed by "Failed to delete profile: " as its error. *)
Theorem provider_delete_absent (i : string) (app : App) :
  i ∉ id <$> stored_profiles (localStorage (world app)) ->
  exists app',
    ConfigurationProvider.deleteProfile i app
    = Throws (Error ("Failed to delete profile with id " +:+ i)) app' /\
    world app' = world app /\
    currentProfile (state app') = currentProfile (state app) /\
    profiles (state app') = profiles (state app) /\
    loading (state app') = false /\
    error (state app')
    = Some ("Failed to delete profile: " +:+ "Failed to delete profile with id " +:+ i).
Proof.
  intros Habs. eexists. split.
  { unfold ConfigurationProvider.deleteProfile, try_catch.
    mstep (lift_Returns _ app _ _ (deleteProfile_absent i (world app) Habs)).
    reflexivity. }
  cbn. repeat split.
Qed.

Lemma provider_delete_absent_witness :
  exists app',
    ConfigurationProvider.deleteProfile "p2"
      {| state := {| currentProfile := Some dark_profile;
                     profiles := [dark_profile; light_profile];
                     loading := true; error := None |};
         world := sample_world (Some (Encoded dark_profile))
                               (Some (Encoded [dark_profile])) [] [] |}
    = Throws (Error "Failed to delete profile with id p2") app' /\
    profiles (state app') = [dark_profile; light_profile] /\
    error (state app')
    = Some "Failed to delete profile: Failed to delete profile with id p2".
Proof.
  destruct (provider_delete_absent "p2"
              {| state := {| currentProfile := Some dark_profile;
                             profiles := [dark_profile; light_profile];
                             loading := true; error := None |};
                 world := sample_world (Some (Encoded dark_profile))
                                       (Some (Encoded [dark_profile])) [] [] |})
    as (app' & Hrun & _ & _ & Hp & _ & Herr).
  { apply (bool_decide_unpack _). vm_compute. exact I. }
  exists app'. split; [exact Hrun|]. split; [exact Hp | exact Herr].
Defined.

(** A request to the coalescer returns in every world, without writing. *)
Lemma autoSave_total (p : ConfigurationProfile) (w : World) :
  exists w',
    autoSaveCurrentProfile p w = Returns tt w' /\
    localStorage w' = localStorage w /\ journal w' = journal w.
Proof.
  unfold autoSaveCurrentProfile, debouncedSaveCurrentProfile, executedFunction.
  mstep (eq_refl : gets timeout w = Returns (timeout w) w).
  destruct (timeout w) as [h|]; eexists; (split; [reflexivity|]); split; reflexivity.
Qed.

(** The run of an [updateSetting] closure whose render had the current
    profile [c]: the transition acts on the projector's own state, and the
    coalescer is handed the captured [c] with the key set. *)
Lemma updateSetting_run (rendered : ConfigurationState) (k : string) (v : any)
    (app : App) (c : ConfigurationProfile) :
  owned (world app) ->
  currentProfile rendered = Some c ->
  exists app',
    ConfigurationProvider.updateSetting rendered k v app = Returns tt app' /\
    currentProfile (state app')
      = (fun l => with_updatedAt (with_setting l k v)
                    (toISOString (clock (world app) + elapsed (world app))))
        <$> currentProfile (state app) /\
    profiles (state app') = profiles (state app) /\
    pending (with_setting c k v) 5000 (world app') /\
    journal (world app') = journal (world app) /\
    localStorage (world app') = localStorage (world app).
Proof.
  intros Hown Hc. unfold ConfigurationProvider.updateSetting.
  destruct (currentProfile (state app)) as [l|] eqn:Hl.
  - assert (Hown' : owned (ticked (world app))) by exact Hown.
    destruct (autoSave_run (with_setting c k v) (ticked (world app)) Hown')
      as (w' & Hauto & Hp & Hj & Hs & _).
    eexists. split.
    { unfold bind, dispatch, configurationReducer. rewrite Hl.
      rewrite (bind_Returns _ _ _ _ _ (new_Date_toISOString_run (world app))).
      unfold ret, lift. rewrite Hc. cbn [world state].
      unfold with_setting in Hauto. rewrite Hauto. reflexivity. }
    cbn [state world currentProfile profiles]. repeat split; assumption.
  - destruct (autoSave_run (with_setting c k v) (world app) Hown)
      as (w' & Hauto & Hp & Hj & Hs & _).
    eexists. split.
    { unfold bind, dispatch, configurationReducer. rewrite Hl.
      unfold ret, lift. rewrite Hc. cbn [world state].
      unfold with_setting in Hauto. rewrite Hauto. reflexivity. }
    cbn [state world currentProfile profiles]. rewrite Hl. repeat split; assumption.
Qed.

(** The run of an [updateSetting] closure whose render had no current
    profile: the transition alone. *)
Lemma updateSetting_no_request (rendered : ConfigurationState) (k : string) (v : any)
    (app : App) :
  currentProfile rendered = None ->
  exists app',
    ConfigurationProvider.updateSetting rendered k v app = Returns tt app' /\
    currentProfile (state app')
      = (fun l => with_updatedAt (with_setting l k v)
                    (toISOString (clock (world app) + elapsed (world app))))
        <$> currentProfile (state app) /\
    profiles (state app') = profiles (state app) /\
    timers (world app') = timers (world app) /\
    journal (world app') = journal (world app) /\
    localStorage (world app') = localStorage (world app).
Proof.
  intros Hc. unfold ConfigurationProvider.updateSetting.
  destruct (currentProfile (state app)) as [l|] eqn:Hl.
  - eexists. split.
    { unfold bind, dispatch, configurationReducer. rewrite Hl.
      rewrite (bind_Returns _ _ _ _ _ (new_Date_toISOString_run (world app))).
      unfold ret. rewrite Hc. reflexivity. }
    cbn [state world currentProfile profiles]. repeat split.
  - eexists. split.
    { unfold bind, dispatch, configurationReducer. rewrite Hl.
      unfold ret. rewrite Hc. reflexivity. }
    cbn [state world currentProfile profiles]. rewrite Hl. repeat split.
Qed.



(** X14. A render's [getSetting] reads the state that render captured.
    After [updateSetting(k, v)] from any render, the [getSetting] of a
    render of the new state returns [v] for [k] when there is a current
    profile and, for any other key, what the [getSetting] of a render of the
    former state returns.  On a settings object without the key asked for,
    [getSetting] returns the member of [Object.prototype] of that name
    ([toString], [constructor], ...) when there is one, and undefined
    otherwise.  With no current profile, [updateSetting] leaves the
    projector as it was and [getSetting] is undefined for every key. *)
Theorem updateSetting_then_getSetting (k k' : string) (v : any)
    (rendered : ConfigurationState) (app : App) :
  exists app',
    ConfigurationProvider.updateSetting rendered k v app = Returns tt app' /\
    ConfigurationProvider.getSetting (state app') k
    = match currentProfile (state app) with
      | Some _ => Own v
      | None => Undefined
      end /\
    (k' ≠ k ->
     ConfigurationProvider.getSetting (state app') k'
     = ConfigurationProvider.getSetting (state app) k') /\
    (forall c, currentProfile (state app) = Some c ->
       ConfigurationProvider.getSetting (state app) k'
       = match settings c !! k' with
         | Some value => Own value
         | None => if bool_decide (k' ∈ Object_prototype)
                   then Inherited k' else Undefined
         end) /\
    (currentProfile (state app) = None ->
     state app' = state app /\
     ConfigurationProvider.getSetting (state app) k' = Undefined).
Proof.
  assert (Hrun : exists app',
             ConfigurationProvider.updateSetting rendered k v app = Returns tt app' /\
             state app'
             = match currentProfile (state app) with
               | None => state app
               | Some l =>
                   {| currentProfile :=
                        Some (with_updatedAt (with_setting l k v)
                                (toISOString (clock (world app) + elapsed (world app))));
                      profiles := profiles (state app);
                      loading := loading (state app); error := error (state app) |}
               end).
  { unfold ConfigurationProvider.updateSetting, bind, dispatch, configurationReducer.
    destruct (currentProfile (state app)) as [l|] eqn:Hl.
    - rewrite (bind_Returns _ _ _ _ _ (new_Date_toISOString_run (world app))).
      unfold ret. destruct (currentProfile rendered) as [c|].
      + destruct (autoSave_total
                    {| id := id c; name := name c; settings := <[k := v]> (settings c);
                       createdAt := createdAt c; updatedAt := updatedAt c;
                       version := version c |} (ticked (world app))) as (w' & Hauto & _).
        unfold lift. cbn [world state]. rewrite Hauto.
        eexists. split; reflexivity.
      + eexists. split; reflexivity.
    - unfold ret. destruct (currentProfile rendered) as [c|].
      + destruct (autoSave_total
                    {| id := id c; name := name c; settings := <[k := v]> (settings c);
                       createdAt := createdAt c; updatedAt := updatedAt c;
                       version := version c |} (world app)) as (w' & Hauto & _).
        unfold lift. cbn [world state]. rewrite Hauto.
        eexists. split; reflexivity.
      + eexists. split; [reflexivity|]. destruct (state app); reflexivity. }
  destruct Hrun as (app' & Hrun & Hst). exists app'.
  split; [exact Hrun|]. rewrite Hst. unfold ConfigurationProvider.getSetting, get_property.
  destruct (currentProfile (state app)) as [l|] eqn:Hl; cbn [currentProfile].
  - cbn. rewrite lookup_insert_eq. split; [reflexivity|].
    split; [intros Hne; rewrite lookup_insert_ne by congruence; reflexivity|].
    split; [|discriminate]. intros c [= <-]. reflexivity.
  - rewrite !Hl. split; [reflexivity|]. split; [reflexivity|].
    split; [discriminate|]. intros _. split; reflexivity.
Qed.

Lemma updateSetting_then_getSetting_witness :
  let app := {| state := {| currentProfile := Some dark_profile;
                            profiles := [dark_profile];
                            loading := false; error := None |};
                world := sample_world (Some (Encoded dark_profile))
                                      (Some (Encoded [dark_profile])) [] [] |} in
  exists app',
    ConfigurationProvider.updateSetting (state app) "theme" (JStr "light") app
    = Returns tt app' /\
    ConfigurationProvider.getSetting (state app') "theme" = Own (JStr "light") /\
    ConfigurationProvider.getSetting (state app) "theme" = Own (JStr "dark") /\
    ConfigurationProvider.getSetting (state app') "language" = Own (JStr "en").
Proof.
  intros app.
  destruct (updateSetting_then_getSetting "theme" "language" (JStr "light") (state app) app)
    as (app' & Hrun & Hnew & Hother & _).
  exists app'. split; [exact Hrun|]. split; [exact Hnew|]. split; [reflexivity|].
  rewrite Hother by discriminate. reflexivity.
Defined.

(** A setting never given reads as the inherited member of that name. *)
Example getSetting_of_inherited_member :
  let rendered := {| currentProfile := Some dark_profile; profiles := [dark_profile];
                     loading := false; error := None |} in
  ConfigurationProvider.getSetting rendered "theme" = Own (JStr "dark") /\
  ConfigurationProvider.getSetting rendered "toString" = Inherited "toString" /\
  ConfigurationProvider.getSetting rendered "fontSize" = Undefined.
Proof. repeat split. Qed.

(** X15. Requests at least 5000 ms apart are each written: a request, a
    quiet period of 5000 ms or more, a second request and again 5000 ms or
    more of quiet leave two writes, of the first and then of the second
    argument, and an idle timer queue. *)
Theorem autosave_spaced_requests (p1 p2 : ConfigurationProfile)
    (waits1 waits2 : list Z) (w : World) :
  owned w -> 5000 <= total waits1 -> 5000 <= total waits2 ->
  exists w' t1 t2,
    (autoSaveCurrentProfile p1 ;;; idle waits1 ;;;
     autoSaveCurrentProfile p2 ;;; idle waits2) w = Returns tt w' /\
    journal w' = (journal w ++ [SetConfig (Encoded (with_updatedAt p1 t1));
                                SetConfig (Encoded (with_updatedAt p2 t2))])%list /\
    stored_current (localStorage w') = Some (with_updatedAt p2 t2) /\
    timers w' = [].
Proof.
  intros Hown H1 H2.
  destruct (autoSave_run p1 w Hown) as (wa & Hra & Hpa & Hja & _).
  destruct (idle_flush p1 waits1 5000 wa Hpa ltac:(lia)) as (wb & Hrb & Htb & Hjb & _).
  destruct (autoSave_run p2 wb (or_introl Htb)) as (wc & Hrc & Hpc & Hjc & _).
  destruct (idle_flush p2 waits2 5000 wc Hpc ltac:(lia)) as (wd & Hrd & Htd & Hjd & Hcd & _).
  exists wd. do 2 eexists.
  split; [mstep Hra; mstep Hrb; mstep Hrc; exact Hrd|].
  split; [rewrite Hjd, Hjc, Hjb, Hja, <- app_assoc; reflexivity|].
  split; [unfold stored_current; rewrite Hcd; reflexivity | exact Htd].
Qed.

Lemma autosave_spaced_requests_witness :
  exists w' t1 t2,
    (autoSaveCurrentProfile dark_profile ;;; idle [5000] ;;;
     autoSaveCurrentProfile light_profile ;;; idle [2500; 2500])
      (sample_world None None [] []) = Returns tt w' /\
    journal w' = [SetConfig (Encoded (with_updatedAt dark_profile t1));
                  SetConfig (Encoded (with_updatedAt light_profile t2))] /\
    stored_current (localStorage w') = Some (with_updatedAt light_profile t2) /\
    timers w' = [].
Proof.
  apply (autosave_spaced_requests dark_profile light_profile [5000] [2500; 2500]
           (sample_world None None [] [])).
  - left. reflexivity.
  - cbn. lia.
  - cbn. lia.
Defined.

(** An [updateSetting] closure returns in every world, without writing. *)
Lemma updateSetting_total (rendered : ConfigurationState) (k : string) (v : any)
    (app : App) :
  exists app',
    ConfigurationProvider.updateSetting rendered k v app = Returns tt app' /\
    currentProfile (state app')
      = (fun l => with_updatedAt (with_setting l k v)
                    (toISOString (clock (world app) + elapsed (world app))))
        <$> currentProfile (state app) /\
    profiles (state app') = profiles (state app) /\
    journal (world app') = journal (world app) /\
    localStorage (world app') = localStorage (world app).
Proof.
  destruct (currentProfile rendered) as [c|] eqn:Hc.
  - unfold ConfigurationProvider.updateSetting.
    destruct (currentProfile (state app)) as [l|] eqn:Hl.
    + destruct (autoSave_total (with_setting c k v) (ticked (world app)))
        as (w' & Hauto & Hs & Hj).
      eexists. split.
      { unfold bind, dispatch, configurationReducer. rewrite Hl.
        rewrite (bind_Returns _ _ _ _ _ (new_Date_toISOString_run (world app))).
        unfold ret, lift. rewrite Hc. cbn [world state].
        unfold with_setting in Hauto. rewrite Hauto. reflexivity. }
      cbn [state world currentProfile profiles]. repeat split; assumption.
    + destruct (autoSave_total (with_setting c k v) (world app))
        as (w' & Hauto & Hs & Hj).
      eexists. split.
      { unfold bind, dispatch, configurationReducer. rewrite Hl.
        unfold ret, lift. rewrite Hc. cbn [world state].
        unfold with_setting in Hauto. rewrite Hauto. reflexivity. }
      cbn [state world currentProfile profiles]. rewrite Hl. repeat split; assumption.
  - destruct (updateSetting_no_request rendered k v app Hc)
      as (app' & Hrun & Hcur & Hprof & _ & Hj & Hs).
    exists app'. repeat split; assumption.
Qed.

(** X16. On a storage that accepts every write, and apart from
    [deleteProfile], the provider keeps its current profile in step with the
    current-pointer slot.  If the projector's list mirrors the stored list
    and the projector and the slot designate the same profile (by id, or
    both none), then they still do: after [createProfile], which returns;
    after [switchProfile(i)] from any render, which returns when the stored
    list holds id [i] and throws with nothing written when not; after a
    [saveConfig] that returns, when its render captured a current profile of
    the id that the projector has at the call; after a [saveConfig] that
    throws (its render had no current profile, or one of an id the stored
    list lacks), with nothing written; and after [updateSetting] from any
    render, which returns -- and, when its render captured a current profile
    of the id that the projector has at the call, also after any quiet
    period that follows, whether or not the deferred write has run. *)
Theorem provider_keeps_same_current (req : NewProfileRequest.t) (i k : string)
    (v : any) (updates : ConfigurationUpdate.t) (rendered : ConfigurationState)
    (app : App) :
  mirrors app -> same_current app ->
  let ids := id <$> stored_profiles (localStorage (world app)) in
  (exists app',
     ConfigurationProvider.createProfile req app = Returns tt app' /\
     same_current app') /\
  (i ∈ ids ->
   exists app', switchProfileFrom rendered i app = Returns tt app' /\ same_current app') /\
  (i ∉ ids ->
   exists e app',
     switchProfileFrom rendered i app = Throws e app' /\
     world app' = world app /\ same_current app') /\
  (forall c, currentProfile rendered = Some c ->
     id <$> currentProfile (state app) = Some (id c) -> id c ∈ ids ->
     exists app',
       ConfigurationProvider.saveConfigFrom rendered updates app = Returns tt app' /\
       same_current app') /\
  (match currentProfile rendered with
   | None => True
   | Some c => id c ∉ ids
   end ->
   exists e app',
     ConfigurationProvider.saveConfigFrom rendered updates app = Throws e app' /\
     world app' = world app /\ same_current app') /\
  (exists app',
     ConfigurationProvider.updateSetting rendered k v app = Returns tt app' /\
     same_current app' /\
     (forall c, currentProfile rendered = Some c ->
        id <$> currentProfile (state app) = Some (id c) -> owned (world app) ->
        forall waits,
          exists w2,
            idle waits (world app') = Returns tt w2 /\
            same_current {| state := state app'; world := w2 |})).
Proof.
  intros Hm Hs. cbv zeta. unfold mirrors, same_current in *.
  split; [|split; [|split; [|split; [|split]]]].
  - unfold ConfigurationProvider.createProfile, try_catch.
    pose proof (createProfile_run req (world app)) as Hrun. cbv zeta in Hrun.
    mstep (lift_Returns _ app _ _ Hrun). eexists. split; [reflexivity|].
    cbn. rewrite Hm. destruct (bool_decide _); [reflexivity | exact Hs].
  - intros Hin.
    destruct (find i (stored_profiles (localStorage (world app)))) as [target|] eqn:Hfind.
    + destruct (switchProfileFrom_run rendered i app target Hfind)
        as (w' & t & Hrun & Hslot & _).
      eexists. split; [exact Hrun|]. cbn [state world currentProfile].
      rewrite Hslot. reflexivity.
    + apply find_None in Hfind. contradiction.
  - intros Habs. do 2 eexists.
    split; [apply (switchProfileFrom_throws rendered i app Habs)|].
    split; [reflexivity | exact Hs].
  - intros c Hc Hlive Hin.
    destruct (findIndex_is_Some _ _ Hin) as [n Hn].
    destruct (findIndex_Some _ _ _ Hn) as (old & Hold & Hid & _).
    pose proof (updateProfile_run (id c) updates (world app) n old Hn Hold) as Hrun.
    cbv zeta in Hrun.
    eexists. split; [apply (saveConfigFrom_run rendered updates app c _ _ Hc Hrun)|].
    cbn [state world currentProfile].
    rewrite Hlive in Hs.
    destruct (stored_current (localStorage (world app))) as [c'|]; [|discriminate Hs].
    injection Hs as Hs. rewrite bool_decide_eq_true_2 by congruence. reflexivity.
  - intros Hfail. do 2 eexists.
    split; [apply (saveConfigFrom_throws rendered updates app Hfail)|].
    split; [reflexivity | exact Hs].
  - destruct (updateSetting_total rendered k v app)
      as (app' & Hrun & Hcur & _ & _ & Hst).
    assert (Hids : id <$> currentProfile (state app') = id <$> currentProfile (state app)).
    { rewrite Hcur. destruct (currentProfile (state app)); reflexivity. }
    exists app'. split; [exact Hrun|].
    split; [rewrite Hids, Hst; exact Hs|].
    intros c Hc Hlive Hown waits.
    destruct (updateSetting_run rendered k v app c Hown Hc)
      as (app'' & Hrun' & _ & _ & Hp & _).
    rewrite Hrun in Hrun'. injection Hrun' as <-.
    destruct (decide (total waits < 5000)) as [Hshort|Hlong].
    + destruct (idle_short _ waits 5000 _ Hp Hshort) as (w2 & Hrun2 & _ & _ & Hs2).
      exists w2. split; [exact Hrun2|]. cbn [state world].
      rewrite Hids, Hs2, Hst. exact Hs.
    + destruct (idle_flush _ waits 5000 _ Hp ltac:(lia)) as (w2 & Hrun2 & _ & _ & Hcfg2 & _).
      exists w2. split; [exact Hrun2|]. cbn [state world].
      rewrite Hids, Hlive. unfold stored_current. rewrite Hcfg2. reflexivity.
Qed.

Lemma provider_keeps_same_current_witness :
  let app := {| state := {| currentProfile := Some dark_profile;
                            profiles := [dark_profile; light_profile];
                            loading := false; error := None |};
                world := sample_world (Some (Encoded dark_profile))
                                      (Some (Encoded [dark_profile; light_profile]))
                                      [] ["0.i"] |} in
  (exists app', switchProfileFrom (state app) "p2" app = Returns tt app' /\
                same_current app') /\
  (exists app',
     ConfigurationProvider.saveConfigFrom (state app) theme_light app = Returns tt app' /\
     same_current app').
Proof.
  intros app.
  destruct (provider_keeps_same_current
              {| NewProfileRequest.name := "Work"; NewProfileRequest.copyFromCurrent := None |}
              "p2" "theme" (JStr "light") theme_light (state app) app eq_refl eq_refl)
    as (_ & Hswitch & _ & Hsave & _).
  split.
  - apply Hswitch. cbn. right. left.
  - apply (Hsave dark_profile eq_refl eq_refl). cbn. left.
Defined.

(** X19. Two settings changed through the closures of one render lose the
    first in the durable copy: after [updateSetting(k1, v1)] and then
    [updateSetting(k2, v2)] from the same render, whose current profile was
    [c], the projector's own current profile has both keys set, but the one
    write that follows 5000 ms of quiet stores the captured [c] with [k2]
    set to [v2] only -- under [k1], when [k1] is another key, it stores what
    [c] had there. *)
Theorem updateSetting_twice_in_one_render (k1 k2 : string) (v1 v2 : any)
    (rendered : ConfigurationState) (app : App) (c : ConfigurationProfile)
    (waits : list Z) :
  owned (world app) ->
  currentProfile rendered = Some c ->
  5000 <= total waits ->
  exists app1 app2 w3 t,
    ConfigurationProvider.updateSetting rendered k1 v1 app = Returns tt app1 /\
    ConfigurationProvider.updateSetting rendered k2 v2 app1 = Returns tt app2 /\
    settings <$> currentProfile (state app2)
      = (fun l => <[k2 := v2]> (<[k1 := v1]> (settings l))) <$> currentProfile (state app) /\
    idle waits (world app2) = Returns tt w3 /\
    stored_current (localStorage w3) = Some (with_updatedAt (with_setting c k2 v2) t) /\
    journal w3
    = (journal (world app)
       ++ [SetConfig (Encoded (with_updatedAt (with_setting c k2 v2) t))])%list /\
    (k1 ≠ k2 ->
     forall q, stored_current (localStorage w3) = Some q ->
               settings q !! k1 = settings c !! k1).
Proof.
  intros Hown Hc Hlong.
  destruct (updateSetting_run rendered k1 v1 app c Hown Hc)
    as (app1 & Hrun1 & Hcur1 & _ & Hp1 & Hj1 & Hs1).
  destruct (updateSetting_run rendered k2 v2 app1 c (pending_owned _ _ _ Hp1) Hc)
    as (app2 & Hrun2 & Hcur2 & _ & Hp2 & Hj2 & Hs2).
  destruct (idle_flush _ waits 5000 _ Hp2 ltac:(lia)) as (w3 & Hrun3 & _ & Hj3 & Hcfg3 & _).
  exists app1, app2, w3. eexists.
  split; [exact Hrun1|]. split; [exact Hrun2|].
  split; [rewrite Hcur2, Hcur1; destruct (currentProfile (state app)); reflexivity|].
  split; [exact Hrun3|].
  split; [unfold stored_current; rewrite Hcfg3; reflexivity|].
  split; [rewrite Hj3, Hj2, Hj1; reflexivity|].
  intros Hne q. unfold stored_current. rewrite Hcfg3. intros [= <-].
  cbn. apply lookup_insert_ne. congruence.
Qed.

Lemma updateSetting_twice_in_one_render_witness :
  let app := {| state := {| currentProfile := Some dark_profile;
                            profiles := [dark_profile];
                            loading := false; error := None |};
                world := sample_world (Some (Encoded dark_profile))
                                      (Some (Encoded [dark_profile])) [] [] |} in
  exists app1 app2 w3 q,
    ConfigurationProvider.updateSetting (state app) "theme" (JStr "light") app
    = Returns tt app1 /\
    ConfigurationProvider.updateSetting (state app) "language" (JStr "fr") app1
    = Returns tt app2 /\
    settings <$> currentProfile (state app2)
    = Some {[ "theme" := JStr "light"; "language" := JStr "fr" ]} /\
    idle [5000] (world app2) = Returns tt w3 /\
    stored_current (localStorage w3) = Some q /\
    settings q !! "language" = Some (JStr "fr") /\
    settings q !! "theme" = Some (JStr "dark").
Proof.
  intros app.
  destruct (updateSetting_twice_in_one_render "theme" "language" (JStr "light") (JStr "fr")
              (state app) app dark_profile [5000])
    as (app1 & app2 & w3 & t & Hrun1 & Hrun2 & Hcur & Hidle & Hq & _ & Hkeep).
  { left. reflexivity. }
  { reflexivity. }
  { cbn. lia. }
  exists app1, app2, w3. eexists.
  split; [exact Hrun1|]. split; [exact Hrun2|].
  split; [rewrite Hcur; cbn; f_equal; apply (bool_decide_unpack _); vm_compute; exact I|].
  split; [exact Hidle|]. split; [exact Hq|].
  split; [reflexivity|].
  rewrite (Hkeep ltac:(discriminate) _ Hq). reflexivity.
Defined.



(* ===================================================================== *)
(** ** Properties of the stand-alone hook *)
(* ===================================================================== *)

Lemma hook_lift_Returns {A} (m : M World A) (h : useConfigHook.Hook) (a : A) (w' : World) :
  m (useConfigHook.world h) = Returns a w' ->
  useConfigHook.lift m h
  = Returns a {| useConfigHook.currentProfile := useConfigHook.currentProfile h;
                 useConfigHook.loading := useConfigHook.loading h;
                 useConfigHook.error := useConfigHook.error h;
                 useConfigHook.world := w' |}.
Proof. unfold useConfigHook.lift. intros ->. reflexivity. Qed.

(** The run of the hook's [saveConfig] with a current profile in memory. *)
Lemma hook_saveConfig_run (updates : ConfigurationUpdate.t) (h : useConfigHook.Hook)
    (c : ConfigurationProfile) (res : option ConfigurationProfile) (w' : World) :
  useConfigHook.currentProfile h = Some c ->
  updateProfile (id c) updates (useConfigHook.world h) = Returns res w' ->
  useConfigHook.saveConfig updates h
  = Returns tt
      {| useConfigHook.currentProfile :=
           match res with Some r => Some r | None => Some c end;
         useConfigHook.loading := false;
         useConfigHook.error := None;
         useConfigHook.world := w' |}.
Proof.
  intros Hc Hup. unfold useConfigHook.saveConfig.
  mstep (eq_refl : gets useConfigHook.currentProfile h
                   = Returns (useConfigHook.currentProfile h) h).
  rewrite Hc. unfold try_finally, try_catch.
  set (h2 := {| useConfigHook.currentProfile := useConfigHook.currentProfile h;
                useConfigHook.loading := true;
                useConfigHook.error := None;
                useConfigHook.world := useConfigHook.world h |}).
  set (h1 := {| useConfigHook.currentProfile := useConfigHook.currentProfile h;
                useConfigHook.loading := true;
                useConfigHook.error := useConfigHook.error h;
                useConfigHook.world := useConfigHook.world h |}).
  mstep (eq_refl : useConfigHook.setLoading true h = Returns tt h1).
  mstep (eq_refl : useConfigHook.setError None h1 = Returns tt h2).
  mstep (hook_lift_Returns _ h2 _ _ Hup).
  destruct res as [r|]; cbn; rewrite ?Hc; reflexivity.
Qed.

(** X17. The hook's [saveConfig] and [updateSetting] with no current profile
    throw ("No current profile to save", "No current profile to update")
    before touching anything: the three state cells and the world are as
    they were.  With a current profile whose id is not in the stored list,
    [saveConfig] returns normally -- it does not report the miss -- having
    written nothing and kept the current profile, with loading off and the
    error cleared. *)
Theorem hook_saveConfig_edge_cases (updates : ConfigurationUpdate.t) (k : string)
    (v : any) (h : useConfigHook.Hook) :
  (useConfigHook.currentProfile h = None ->
   useConfigHook.saveConfig updates h = Throws (Error "No current profile to save") h /\
   useConfigHook.updateSetting k v h = Throws (Error "No current profile to update") h) /\
  (forall c,
     useConfigHook.currentProfile h = Some c ->
     id c ∉ id <$> stored_profiles (localStorage (useConfigHook.world h)) ->
     exists h',
       useConfigHook.saveConfig updates h = Returns tt h' /\
       useConfigHook.world h' = useConfigHook.world h /\
       useConfigHook.currentProfile h' = Some c /\
       useConfigHook.loading h' = false /\ useConfigHook.error h' = None).
Proof.
  split.
  - intros Hc. split.
    + unfold useConfigHook.saveConfig, bind, gets. rewrite Hc. reflexivity.
    + unfold useConfigHook.updateSetting, bind, gets. rewrite Hc. reflexivity.
  - intros c Hc Habs. eexists.
    split; [apply (hook_saveConfig_run updates h c None _ Hc
                     (updateProfile_absent (id c) updates _ Habs))|].
    repeat split.
Qed.

Lemma hook_saveConfig_edge_cases_witness :
  (exists h,
     useConfigHook.saveConfig theme_light h = Throws (Error "No current profile to save") h) /\
  (exists h',
     useConfigHook.saveConfig theme_light
       {| useConfigHook.currentProfile := Some dark_profile;
          useConfigHook.loading := false;
          useConfigHook.error := Some "old";
          useConfigHook.world := sample_world None (Some (Encoded [light_profile])) [] [] |}
     = Returns tt h' /\
     journal (useConfigHook.world h') = [] /\ useConfigHook.error h' = None).
Proof.
  split.
  - exists {| useConfigHook.currentProfile := None; useConfigHook.loading := true;
              useConfigHook.error := None;
              useConfigHook.world := sample_world None None [] [] |}.
    apply (proj1 (hook_saveConfig_edge_cases theme_light "theme" (JStr "light") _)).
    reflexivity.
  - destruct (proj2 (hook_saveConfig_edge_cases theme_light "theme" (JStr "light")
                       {| useConfigHook.currentProfile := Some dark_profile;
                          useConfigHook.loading := false;
                          useConfigHook.error := Some "old";
                          useConfigHook.world :=
                            sample_world None (Some (Encoded [light_profile])) [] [] |})
                    dark_profile eq_refl)
      as (h' & Hrun & Hw & _ & _ & Herr).
    { apply (bool_decide_unpack _). vm_compute. exact I. }
    exists h'. split; [exact Hrun|]. split; [rewrite Hw; reflexivity | exact Herr].
Defined.

(** X18. The hook's [updateSetting(k, v)] writes at once and sends the whole
    in-memory bag: with a current profile [c] whose id is in the stored
    list, the first entry of that id is rewritten with key [k] set to [v],
    every other key of [c]'s in-memory settings set to its in-memory value
    (whatever the store held), and the keys the memory does not know kept
    from the store; the result becomes the hook's current profile. *)
Theorem hook_updateSetting_writes_at_once (k : string) (v : any)
    (h : useConfigHook.Hook) (c : ConfigurationProfile) :
  useConfigHook.currentProfile h = Some c ->
  id c ∈ id <$> stored_profiles (localStorage (useConfigHook.world h)) ->
  exists n old r h',
    findIndex (id c) (stored_profiles (localStorage (useConfigHook.world h))) = Some n /\
    stored_profiles (localStorage (useConfigHook.world h)) !! n = Some old /\
    useConfigHook.updateSetting k v h = Returns tt h' /\
    useConfigHook.currentProfile h' = Some r /\
    stored_profiles (localStorage (useConfigHook.world h')) !! n = Some r /\
    settings r !! k = Some v /\
    (forall k' x, k' ≠ k -> settings c !! k' = Some x -> settings r !! k' = Some x) /\
    (forall k', k' ≠ k -> settings c !! k' = None ->
                settings r !! k' = settings old !! k') /\
    useConfigHook.loading h' = false /\ useConfigHook.error h' = None.
Proof.
  intros Hc Hin.
  set (updates := {| ConfigurationUpdate.settings := Some (<[k := v]> (settings c));
                     ConfigurationUpdate.name := None |}).
  destruct (updateProfile_effect (id c) updates (useConfigHook.world h))
    as [[Habs _] | (n & old & r & w' & Hn & Hold & Hid & Hr & Hrun & Hlist & _)];
    [contradiction|].
  exists n, old, r. eexists.
  split; [exact Hn|]. split; [exact Hold|].
  split.
  { unfold useConfigHook.updateSetting.
    mstep (eq_refl : gets useConfigHook.currentProfile h
                     = Returns (useConfigHook.currentProfile h) h).
    rewrite Hc. apply (hook_saveConfig_run updates h c (Some r) w' Hc Hrun). }
  split; [reflexivity|].
  split.
  { cbn. rewrite Hlist. apply list_lookup_insert_eq. eapply lookup_lt_Some, Hold. }
  rewrite Hr. cbn. unfold spread.
  split; [apply lookup_union_Some_l, lookup_insert_eq|].
  split.
  { intros k' x Hne Hx. apply lookup_union_Some_l.
    rewrite lookup_insert_ne by congruence. exact Hx. }
  split; [|split; reflexivity].
  intros k' Hne Hx. apply lookup_union_r.
  rewrite lookup_insert_ne by congruence. exact Hx.
Qed.

Lemma hook_updateSetting_writes_at_once_witness :
  exists r h',
    useConfigHook.updateSetting "theme" (JStr "light")
      {| useConfigHook.currentProfile := Some dark_profile;
         useConfigHook.loading := false;
         useConfigHook.error := None;
         useConfigHook.world :=
           sample_world (Some (Encoded dark_profile))
                        (Some (Encoded [dark_profile; light_profile])) [] [] |}
    = Returns tt h' /\
    stored_profiles (localStorage (useConfigHook.world h')) !! 0%nat = Some r /\
    settings r !! "theme" = Some (JStr "light") /\
    settings r !! "language" = Some (JStr "en").
Proof.
  destruct (hook_updateSetting_writes_at_once "theme" (JStr "light")
              {| useConfigHook.currentProfile := Some dark_profile;
                 useConfigHook.loading := false;
                 useConfigHook.error := None;
                 useConfigHook.world :=
                   sample_world (Some (Encoded dark_profile))
                                (Some (Encoded [dark_profile; light_profile])) [] [] |}
              dark_profile eq_refl)
    as (n & old & r & h' & Hn & _ & Hrun & _ & Hentry & Hk & Hmem & _).
  { cbn. left. }
  exists r, h'. split; [exact Hrun|].
  injection Hn as <-. split; [exact Hentry|]. split; [exact Hk|].
  apply (Hmem "language" (JStr "en")); [discriminate | reflexivity].
Defined.
